(** * Verification of the review ingestion and retrieval pipeline

  Shallow embedding of
    - [data_ingestion/ingestion_pipeline.py] (class [DataIngestion],
      [detect_category_from_query], the script's [__main__] block),
    - [retriever/retrieval.py] (class [Retriever],
      [detect_category_from_query], the script's [__main__] block),
  together with the Python built-ins and the library calls these two
  files make.

  Python [str] values are modelled as [string]; one [ascii] stands for one
  code point below 256 (Latin-1).  Exceptions are modelled by the [result]
  type, files and the embedding provider by an explicit [world]. *)

From Stdlib Require Import ZArith List String Ascii Bool Lia Permutation Sorted.
From stdpp Require Import gmap strings list fin_maps pretty sorting.

Local Open Scope nat_scope.

(** ** Python built-ins on [str] *)

Module Py.

(** [c.isspace()] for a code point below 256. *)
Definition isspace (c : ascii) : bool :=
  let n := nat_of_ascii c in
  ((9 <=? n) && (n <=? 13)) || ((28 <=? n) && (n <=? 32))
  || (n =? 133) || (n =? 160).

(** [c.lower()] for a code point below 256: A-Z, and the Latin-1 capitals
    U+00C0..U+00DE except the multiplication sign U+00D7. *)
Definition lower_char (c : ascii) : ascii :=
  let n := nat_of_ascii c in
  if ((65 <=? n) && (n <=? 90))
     || ((192 <=? n) && (n <=? 222) && negb (n =? 215))
  then ascii_of_nat (n + 32) else c.

(** [s.lower()] *)
Fixpoint lower (s : string) : string :=
  match s with
  | EmptyString => EmptyString
  | String c s' => String (lower_char c) (lower s')
  end.

(** [s.lstrip()] *)
Fixpoint lstrip (s : string) : string :=
  match s with
  | EmptyString => EmptyString
  | String c s' => if isspace c then lstrip s' else s
  end.

(** [s.rstrip()]: a character is kept when something non-blank follows
    it or it is itself non-blank. *)
Fixpoint rstrip (s : string) : string :=
  match s with
  | EmptyString => EmptyString
  | String c s' =>
      match rstrip s' with
      | EmptyString => if isspace c then EmptyString else String c EmptyString
      | r => String c r
      end
  end.

(** [s.strip()] *)
Definition strip (s : string) : string := rstrip (lstrip s).

(** [sub in s] *)
Fixpoint contains (sub s : string) : bool :=
  if String.prefix sub s then true
  else match s with
       | EmptyString => false
       | String _ s' => contains sub s'
       end.

(** [s.split(sep)] for a non-empty [sep]: leftmost non-overlapping
    occurrences of [sep] cut [s]; [skip] counts the characters of a matched
    separator that are still to be passed over. *)
Fixpoint split_from (sep s : string) (skip : nat) : list string :=
  match s with
  | EmptyString => [EmptyString]
  | String c s' =>
      match skip with
      | S k => split_from sep s' k
      | O =>
          if String.prefix sep s
          then EmptyString :: split_from sep s' (String.length sep - 1)
          else match split_from sep s' 0 with
               | p :: ps => String c p :: ps
               | [] => [String c EmptyString]
               end
      end
  end.

Definition split (sep s : string) : list string := split_from sep s 0.

(** [sep.join(parts)] *)
Fixpoint join (sep : string) (parts : list string) : string :=
  match parts with
  | [] => EmptyString
  | [p] => p
  | p :: ps => p +:+ sep +:+ join sep ps
  end.

Definition is_digit (c : ascii) : bool :=
  let n := nat_of_ascii c in (48 <=? n) && (n <=? 57).

Definition digit_val (c : ascii) : Z := Z.of_nat (nat_of_ascii c) - 48.

(** The digits of an integer literal, most significant first: single
    underscores are allowed between digits only.  [prev] tells whether the
    previous character was a digit. *)
Fixpoint int_digits (s : string) (prev : bool) (acc : Z) : option Z :=
  match s with
  | EmptyString => if prev then Some acc else None
  | String c s' =>
      if is_digit c then int_digits s' true (10 * acc + digit_val c)
      else if (nat_of_ascii c =? 95) && prev then
        match s' with
        | String d _ => if is_digit d then int_digits s' false acc else None
        | EmptyString => None
        end
      else None
  end.

(** [int(s)] in base 10; [None] stands for [ValueError].  The limit on the
    number of digits that recent interpreters enforce is left out. *)
Definition int (s : string) : option Z :=
  match strip s with
  | String "+" r => int_digits r false 0
  | String "-" r => Z.opp <$> int_digits r false 0
  | r => int_digits r false 0
  end.

(** [str(n)] for a non-negative integer. *)
Definition str_of_nat (n : nat) : string := pretty n.

End Py.


(** [list.sort(key=..., reverse=...)] is a stable sort: [sort_by leb key]
    orders by [leb] on the keys and keeps the input order of elements with
    equal keys.  An element is put in front of the first element of the
    sorted tail that it does not exceed. *)
Module PySort.

Section SortBy.
Context {A K : Type} (leb : K -> K -> bool) (key : A -> K).

Fixpoint insert_by (x : A) (l : list A) : list A :=
  match l with
  | [] => [x]
  | y :: l' => if leb (key x) (key y) then x :: l else y :: insert_by x l'
  end.

Definition sort_by (l : list A) : list A := foldr insert_by [] l.

(** The elements whose key is equivalent to [k] *)
Definition same_key (k : K) (a : A) : bool :=
  leb (key a) k && leb k (key a).

End SortBy.

(** [l.sort(key=key, reverse=True)] with integer keys *)
Definition sort_desc {A} (key : A -> Z) : list A -> list A :=
  sort_by (fun a b => Z.leb b a) key.

End PySort.

(** ** Exceptions *)

Inductive exn : Type :=
| IndexError
| ValueError
| AssertionError
| KeyError
| FileNotFound
| TooFewTrainingPoints   (* faiss: fewer training points than clusters *)
| FaissError             (* any other failure raised by faiss *)
| ProviderError.         (* the embedding provider or the judge failed *)

Inductive result (A : Type) : Type :=
| Ok (a : A)
| Raise (e : exn).
Arguments Ok {A} a.
Arguments Raise {A} e.

(** ** Dictionaries and enumeration *)

(** A dictionary display or comprehension such as
    [{str(i): doc for i, doc in enumerate(documents)}]: the entries are
    written in order, a later one replacing an earlier one with its key. *)
Definition dict_of_pairs {K V} `{Countable K} (l : list (K * V)) : gmap K V :=
  foldl (fun m kv => <[kv.1 := kv.2]> m) ∅ l.

(** [enumerate(l)] *)
Definition enumerate {A} (l : list A) : list (nat * A) :=
  imap (fun i x => (i, x)) l.

(** ** Documents *)

(** A cell of the review table or a metadata value: a string, a number
    (kept by its printed form) or pandas' NaN. *)
Inductive cell : Type :=
| CStr (s : string)
| CNum (repr : string)
| CNaN.

(** [str(c)] *)
Definition str_of_cell (c : cell) : string :=
  match c with
  | CStr s => s
  | CNum r => r
  | CNaN => "nan"
  end.

(** [c == s] for a string [s] *)
Definition cell_eq_str (c : cell) (s : string) : bool :=
  match c with
  | CStr t => String.eqb t s
  | _ => false
  end.

(** langchain's [Document] *)
Record Document : Type := mkDocument {
  page_content : string;
  metadata : gmap string cell
}.

(** [doc.metadata.get("category") == category] *)
Definition has_category (category : string) (doc : Document) : bool :=
  match metadata doc !! "category" with
  | Some c => cell_eq_str c category
  | None => false
  end.

(** ** langchain's [RecursiveCharacterTextSplitter]

    The splitter class belongs to the langchain library; its algorithm is
    embedded here as the library defines it, for the default options
    [keep_separator=True], [is_separator_regex=False],
    [strip_whitespace=True] that [transform_data] leaves untouched. *)
Module TextSplitter.

Record config : Type := mkConfig {
  chunk_size : nat;
  chunk_overlap : nat;
  separators : list string
}.

(** [list(text)] *)
Fixpoint chars (s : string) : list string :=
  match s with
  | EmptyString => []
  | String c s' => String c EmptyString :: chars s'
  end.

(** [_split_text_with_regex(text, separator, keep_separator=True)]: every
    separator stays glued to the front of the piece that follows it, and
    empty pieces are dropped. *)
Definition split_text_with_regex (text separator : string) : list string :=
  let splits :=
    if String.eqb separator "" then chars text
    else match Py.split separator text with
         | [] => []
         | p :: ps => p :: map (fun q => separator +:+ q) ps
         end in
  List.filter (fun s => negb (String.eqb s "")) splits.

(** [_join_docs(docs, separator)] *)
Definition join_docs (docs : list string) (separator : string) : option string :=
  let text := Py.strip (Py.join separator docs) in
  if String.eqb text "" then None else Some text.

Definition sep_len_if (b : bool) (separator : string) : nat :=
  if b then String.length separator else 0.

(** The inner [while] loop of [_merge_splits]: pieces leave [current_doc]
    from the front while more than the overlap is kept, or while the next
    piece would not fit. *)
Fixpoint drop_front (cfg : config) (separator : string) (len : nat)
    (current_doc : list string) (total : nat) : list string * nat :=
  match current_doc with
  | [] => ([], total)
  | c :: rest =>
      if (chunk_overlap cfg <? total)
         || ((chunk_size cfg <? total + len + sep_len_if true separator)
             && (0 <? total))
      then drop_front cfg separator len rest
             (total - (String.length c
                       + sep_len_if (1 <? length current_doc) separator))
      else (current_doc, total)
  end.

Definition opt_to_list {A} (o : option A) : list A :=
  match o with Some a => [a] | None => [] end.

(** The [for] loop of [_merge_splits] *)
Fixpoint merge_loop (cfg : config) (separator : string) (splits : list string)
    (docs current_doc : list string) (total : nat) : list string :=
  match splits with
  | [] => docs ++ opt_to_list (join_docs current_doc separator)
  | d :: splits' =>
      let len := String.length d in
      if chunk_size cfg
           <? total + len + sep_len_if (0 <? length current_doc) separator
      then
        match current_doc with
        | [] => merge_loop cfg separator splits' docs [d] (total + len)
        | _ :: _ =>
            let docs' := docs ++ opt_to_list (join_docs current_doc separator) in
            let '(cur, tot) := drop_front cfg separator len current_doc total in
            merge_loop cfg separator splits' docs' (cur ++ [d])
              (tot + len + sep_len_if (0 <? length cur) separator)
        end
      else merge_loop cfg separator splits' docs (current_doc ++ [d])
             (total + len + sep_len_if (0 <? length current_doc) separator)
  end.

Definition merge_splits (cfg : config) (splits : list string)
    (separator : string) : list string :=
  merge_loop cfg separator splits [] [] 0.

(** The loop of [_split_text] over the pieces: short pieces are collected
    and merged, a long piece is handed to [deeper]. *)
Fixpoint collect (cfg : config) (deeper : string -> list string)
    (splits good_splits : list string) : list string :=
  match splits with
  | [] =>
      match good_splits with
      | [] => []
      | _ => merge_splits cfg good_splits ""
      end
  | s :: splits' =>
      if String.length s <? chunk_size cfg
      then collect cfg deeper splits' (good_splits ++ [s])
      else
        match good_splits with
        | [] => []
        | _ => merge_splits cfg good_splits ""
        end ++ deeper s ++ collect cfg deeper splits' []
  end.

(** [_split_text(text, separators)]: the first separator that occurs in the
    text is used (the last one when none occurs), and the separators after
    it serve for the pieces that are still too long. *)
Fixpoint split_text_with (cfg : config) (seps : list string) (text : string)
    {struct seps} : list string :=
  match seps with
  | [] => []
  | s :: rest =>
      if String.eqb s "" then
        collect cfg (fun piece => [piece]) (split_text_with_regex text s) []
      else if Py.contains s text then
        collect cfg
          (match rest with
           | [] => fun piece => [piece]
           | _ => split_text_with cfg rest
           end)
          (split_text_with_regex text s) []
      else
        match rest with
        | [] => collect cfg (fun piece => [piece]) (split_text_with_regex text s) []
        | _ => split_text_with cfg rest text
        end
  end.

(** [splitter.split_text(text)] *)
Definition split_text (cfg : config) (text : string) : list string :=
  split_text_with cfg (separators cfg) text.

End TextSplitter.

(** ** [DataIngestion.transform_data] *)

(** One row of the review table ([self.product_data]); [URL] and [Category]
    are columns that the table may lack. *)
Record row : Type := mkRow {
  Title : cell;
  Rating : cell;
  Price : cell;
  Reviews : cell;
  URL : option cell;
  Category : option cell
}.

Definition is_nan (c : cell) : bool :=
  match c with CNaN => true | _ => false end.

(** [RecursiveCharacterTextSplitter(chunk_size=512, chunk_overlap=50,
    length_function=len, separators=[";",])] *)
Definition text_splitter : TextSplitter.config :=
  {| TextSplitter.chunk_size := 512;
     TextSplitter.chunk_overlap := 50;
     TextSplitter.separators := [";"] |}.

(** The [metadata] dictionary of a row *)
Definition row_metadata (r : row) : gmap string cell :=
  dict_of_pairs
    [("product_name", Title r);
     ("product_rating", Rating r);
     ("product_price", Price r);
     ("product_url", default (CStr "") (URL r));
     ("category", default (CStr "unknown") (Category r))].

(** Body of the loop over [review_texts] *)
Definition documents_of_review (metadata : gmap string cell)
    (single_review : string) : list Document :=
  let single_review := Py.strip single_review in
  if String.eqb single_review "" then []
  else if 512 <? String.length single_review then
    map (fun chunk => mkDocument (Py.strip chunk) metadata)
        (TextSplitter.split_text text_splitter single_review)
  else [mkDocument single_review metadata].

(** Body of the loop over the rows *)
Definition documents_of_row (r : row) : list Document :=
  let review_texts := Py.split ";" (str_of_cell (Reviews r)) in
  flat_map (documents_of_review (row_metadata r)) review_texts.

(** [transform_data]: rows without reviews are dropped; printing
    [documents[0]] raises when no document was produced. *)
Definition transform_data (product_data : list row) : result (list Document) :=
  let clean_data := List.filter (fun r => negb (is_nan (Reviews r))) product_data in
  let documents := flat_map documents_of_row clean_data in
  match documents with
  | [] => Raise IndexError
  | _ :: _ => Ok documents
  end.

(** ** numpy arrays and the faiss index

    The numeric kernels of faiss (k-means clustering, product-quantization
    codebooks, encoding) are outside the repository; they are parameters of
    the model.  What the pipeline relies on is kept explicit: the shape of
    the arrays, the trained flag, the order of the stored codes and the
    minimum number of training points. *)

Section Store.

(** Python floats, as the embedding provider returns them *)
Variable float : Type.
(** numpy's [float32] *)
Variable float32 : Type.
Variable astype_float32 : float -> float32.

(** Trained state of an IVF+PQ index: coarse centroids and codebooks *)
Variable params : Type.
(** Compressed form of one stored vector *)
Variable code : Type.
(** Clustering of the coarse quantizer and of the codebooks for vectors of
    the given dimension; [None] when faiss rejects the training set. *)
Variable fit : nat -> list (list float32) -> option params.
Variable encode : params -> list float32 -> code.

(** The embedding provider: [embeddings.embed_documents(texts)] *)
Variable embed_documents : list string -> result (list (list float)).

(** An array of rank one or two *)
Inductive ndarray : Type :=
| Arr1 (xs : list float32)
| Arr2 (ncols : nat) (rows : list (list float32)).

(** [a.shape] *)
Definition shape (a : ndarray) : list nat :=
  match a with
  | Arr1 xs => [length xs]
  | Arr2 c rows => [length rows; c]
  end.

(** [len(a)], the number of rows *)
Definition nrows (a : ndarray) : nat :=
  match a with
  | Arr1 xs => length xs
  | Arr2 _ rows => length rows
  end.

(** [np.array(vectors).astype("float32")] for a list of lists of floats:
    the empty list gives an array of shape [(0,)], rows of one length give a
    matrix, anything else is refused. *)
Definition np_array (vectors : list (list float)) : result ndarray :=
  match vectors with
  | [] => Ok (Arr1 [])
  | v :: _ =>
      if forallb (fun r => length r =? length v) vectors
      then Ok (Arr2 (length v) (map (map astype_float32) vectors))
      else Raise ValueError
  end.

(** [faiss.IndexIVFPQ] *)
Record IndexIVFPQ : Type := mkIndex {
  d : nat;
  nlist : nat;
  pq_M : nat;
  pq_nbits : nat;
  is_trained : bool;
  trained : option params;
  ntotal : nat;
  codes : list code
}.

(** [faiss.IndexIVFPQ(faiss.IndexFlatL2(dim), dim, nlist, M, nbits)]:
    constructed empty and untrained. *)
Definition new_IndexIVFPQ (dim nl m nb : nat) : IndexIVFPQ :=
  {| d := dim; nlist := nl; pq_M := m; pq_nbits := nb;
     is_trained := false; trained := None; ntotal := 0; codes := [] |}.

(** Modelled from the spec: [index.train(x)], a call into the faiss
    library.  Section 4.3 of the specification: training fits the [nlist]
    coarse clusters and the codebooks on the full vector set, requires at
    least [nlist] vectors and reports an error when fewer are supplied; it
    then marks the index trained. *)
Definition train (idx : IndexIVFPQ) (x : ndarray) : result IndexIVFPQ :=
  match x with
  | Arr1 _ => Raise ValueError
  | Arr2 c rows =>
      if negb (c =? d idx) then Raise AssertionError
      else if length rows <? nlist idx then Raise TooFewTrainingPoints
      else match fit (d idx) rows with
           | None => Raise FaissError
           | Some p =>
               Ok {| d := d idx; nlist := nlist idx; pq_M := pq_M idx;
                     pq_nbits := pq_nbits idx; is_trained := true;
                     trained := Some p; ntotal := ntotal idx;
                     codes := codes idx |}
           end
  end.

(** Modelled from the spec: [index.add(x)], a call into the faiss library.
    Section 4.3: the index must be trained before any vector is added; the
    vectors are encoded and stored in the order given, and [vector_count]
    grows by their number. *)
Definition add (idx : IndexIVFPQ) (x : ndarray) : result IndexIVFPQ :=
  match x with
  | Arr1 _ => Raise ValueError
  | Arr2 c rows =>
      if negb (c =? d idx) then Raise AssertionError
      else match trained idx with
           | None => Raise FaissError
           | Some p =>
               Ok {| d := d idx; nlist := nlist idx; pq_M := pq_M idx;
                     pq_nbits := pq_nbits idx; is_trained := is_trained idx;
                     trained := trained idx;
                     ntotal := ntotal idx + length rows;
                     codes := codes idx ++ map (encode p) rows |}
           end
  end.

(** langchain's [FAISS] vector store *)
Record VectorStore : Type := mkVectorStore {
  index : IndexIVFPQ;
  docstore : gmap string Document;
  index_to_docstore_id : gmap nat string
}.

(** What a run can observe and change: the cache file
    [cached_embeddings.npy], the saved index under [faiss_index_path], and
    the log of the calls that leave the process. *)
Inductive event : Type :=
| EmbedDocuments (texts : list string)
| NpLoad
| NpSave (a : ndarray)
| SaveLocal.

Record world : Type := mkWorld {
  cache_file : option ndarray;
  faiss_index_dir : option VectorStore;
  trace : list event
}.

Definition log (e : event) (w : world) : world :=
  {| cache_file := cache_file w; faiss_index_dir := faiss_index_dir w;
     trace := trace w ++ [e] |}.

(** [np.save(cache_file, a)] *)
Definition np_save (a : ndarray) (w : world) : world :=
  log (NpSave a)
    {| cache_file := Some a; faiss_index_dir := faiss_index_dir w;
       trace := trace w |}.

(** [vstore.save_local(faiss_index_path)] *)
Definition save_local (v : VectorStore) (w : world) : world :=
  log SaveLocal
    {| cache_file := cache_file w; faiss_index_dir := Some v;
       trace := trace w |}.

(** The batches that were sent to the embedding provider, and the arrays
    that were written to the cache file, in order *)
Fixpoint provider_calls (t : list event) : list (list string) :=
  match t with
  | [] => []
  | EmbedDocuments texts :: t' => texts :: provider_calls t'
  | _ :: t' => provider_calls t'
  end.

Fixpoint cache_writes (t : list event) : list ndarray :=
  match t with
  | [] => []
  | NpSave a :: t' => a :: cache_writes t'
  | _ :: t' => cache_writes t'
  end.

(** A computation that changes the world and may raise *)
Definition io (A : Type) : Type := world -> world * result A.

Definition ret {A} (a : A) : io A := fun w => (w, Ok a).

Definition bind {A B} (m : io A) (k : A -> io B) : io B :=
  fun w => match m w with
           | (w', Ok a) => k a w'
           | (w', Raise e) => (w', Raise e)
           end.

Definition lift {A} (r : result A) : io A := fun w => (w, r).

Definition effect (f : world -> world) : io unit := fun w => (f w, Ok tt).

Definition get_world : io world := fun w => (w, Ok w).

Notation "'let*' x := m 'in' k" := (bind m (fun x => k))
  (at level 10, x name, m at level 100, k at level 200).
Notation "'exec' m 'in' k" := (bind m (fun _ => k))
  (at level 10, m at level 100, k at level 200).

(** [DataIngestion.store_in_vector_db] *)
Definition store_in_vector_db (documents : list Document) : io VectorStore :=
  let texts := map page_content documents in
  let* w := get_world in
  let* vectors_np :=
    match cache_file w with
    | Some a => exec effect (log NpLoad) in ret a
    | None =>
        exec effect (log (EmbedDocuments texts)) in
        let* vectors := lift (embed_documents texts) in
        let* a := lift (np_array vectors) in
        exec effect (np_save a) in
        ret a
    end in
  let* dim := lift (match shape vectors_np with
                    | _ :: n :: _ => Ok n
                    | _ => Raise IndexError
                    end) in
  let index0 := new_IndexIVFPQ dim 40 8 8 in
  let* index1 := (if negb (is_trained index0)
                  then lift (train index0 vectors_np)
                  else ret index0) in
  let* index2 := lift (add index1 vectors_np) in
  let docstore :=
    dict_of_pairs (map (fun p => (Py.str_of_nat p.1, p.2)) (enumerate documents)) in
  let index_to_docstore_id :=
    dict_of_pairs (map (fun i => (i, Py.str_of_nat i)) (seq 0 (length documents))) in
  let vstore :=
    {| index := index2; docstore := docstore;
       index_to_docstore_id := index_to_docstore_id |} in
  exec effect (save_local vstore) in
  ret vstore.

(** Where the array [vectors_np] of a run comes from, and the world once
    it is there: the cache file when it exists, the provider otherwise. *)
Definition array_of_run (documents : list Document) (w : world)
    (a : ndarray) (w1 : world) : Prop :=
  (cache_file w = Some a /\ w1 = log NpLoad w)
  \/ (cache_file w = None
      /\ exists vectors,
           embed_documents (map page_content documents) = Ok vectors
           /\ np_array vectors = Ok a
           /\ w1 = np_save a (log (EmbedDocuments (map page_content documents)) w)).

(** [DataIngestion.load_faiss_index] and the [FAISS.load_local] call of
    [Retriever.load_retriever]: the saved pair is read back. *)
Definition load_faiss_index : io VectorStore :=
  fun w => match faiss_index_dir w with
           | Some v => (w, Ok v)
           | None => (w, Raise FileNotFound)
           end.

End Store.

Arguments Arr1 {float32} xs.
Arguments Arr2 {float32} ncols rows.
Arguments shape {float32} a.
Arguments nrows {float32} a.
Arguments mkIndex {params code}.
Arguments d {params code} _.
Arguments nlist {params code} _.
Arguments pq_M {params code} _.
Arguments pq_nbits {params code} _.
Arguments is_trained {params code} _.
Arguments trained {params code} _.
Arguments ntotal {params code} _.
Arguments codes {params code} _.
Arguments mkVectorStore {params code}.
Arguments index {params code} _.
Arguments docstore {params code} _.
Arguments index_to_docstore_id {params code} _.
Arguments EmbedDocuments {float32} texts.
Arguments NpLoad {float32}.
Arguments NpSave {float32} a.
Arguments SaveLocal {float32}.
Arguments mkWorld {float32 params code}.
Arguments cache_file {float32 params code} _.
Arguments faiss_index_dir {float32 params code} _.
Arguments trace {float32 params code} _.
Arguments provider_calls {float32} t.
Arguments cache_writes {float32} t.

(** ** Category detection and the two query scripts *)

Module Ingestion.

(** [detect_category_from_query] of [ingestion_pipeline.py] *)
Definition detect_category_from_query (query : string) : string :=
  let query := Py.lower query in
  if Py.contains "headphone" query || Py.contains "earphone" query
     || Py.contains "headset" query then "headphones"
  else if Py.contains "mobile" query || Py.contains "smartphone" query
          || Py.contains "phone" query then "mobiles"
  else if Py.contains "watch" query then "smart_watches"
  else if Py.contains "tv" query || Py.contains "television" query then "tv"
  else "unknown".

(** The [__main__] block of [ingestion_pipeline.py] after the similarity
    search: the results it prints.  When the filter leaves nothing, only a
    notice is printed. *)
Definition printed_results (query : string) (results : list Document)
    : list Document :=
  let detected_category := detect_category_from_query query in
  if String.eqb detected_category "unknown" then results
  else List.filter (has_category detected_category) results.

End Ingestion.

Module Retrieval.

(** [detect_category_from_query] of [retrieval.py] *)
Definition detect_category_from_query (query : string) : string :=
  let query := Py.lower query in
  if Py.contains "headphone" query || Py.contains "earphone" query
     || Py.contains "headset" query then "headphones"
  else if Py.contains "mobile" query || Py.contains "smartphone" query
          || Py.contains "phone" query then "mobiles"
  else if Py.contains "watch" query || Py.contains "smartwatch" query
  then "smart_watches"
  else if Py.contains "tv" query || Py.contains "television" query then "tv"
  else "unknown".

(** Step 2 of the [__main__] block of [retrieval.py]: the value of
    [category_filtered_results] that is printed and handed to the
    reranker. *)
Definition category_filtered_results (user_query : string)
    (results : list Document) : list Document :=
  let detected_category := detect_category_from_query user_query in
  let filtered :=
    if negb (String.eqb detected_category "unknown")
    then List.filter (has_category detected_category) results
    else results in
  match filtered with
  | [] => results
  | _ :: _ => filtered
  end.

End Retrieval.




(** ** [Retriever.rerank_documents] *)

(** An element of [docs]: a [Document] or an object of another class *)
Inductive pyobj : Type :=
| IsDocument (doc : Document)
| NotDocument.

Definition dquote : string := String (ascii_of_nat 34) EmptyString.
Definition newline : string := String (ascii_of_nat 10) EmptyString.
Definition indent20 : string := "                    ".

(** The f-string sent to the judge *)
Definition relevance_prompt (query content : string) : string :=
  "Rate the relevance of the following review to the query " +:+ dquote
  +:+ query +:+ dquote +:+ " on a scale of 1 to 10." +:+ newline
  +:+ indent20 +:+ "Review: " +:+ content +:+ newline
  +:+ indent20 +:+ "Respond with only the number.".

Section Rerank.

(** The judge: [llm.invoke(prompt)] answers with the [content] of its
    response or raises, and may change its own state. *)
Variable judge : Type.
Variable invoke : judge -> string -> judge * result string.

(** The body of the [try] block: [int(score_response.content.strip())] *)
Definition parse_score (response : result string) : option Z :=
  match response with
  | Ok content => Py.int (Py.strip content)
  | Raise _ => None
  end.

(** The scoring loop: [scored_docs] after the loop, and the judge *)
Fixpoint score_docs (llm : judge) (query : string) (docs : list pyobj)
    : judge * list (Document * Z) :=
  match docs with
  | [] => (llm, [])
  | NotDocument :: rest => score_docs llm query rest
  | IsDocument doc :: rest =>
      let '(llm1, response) := invoke llm (relevance_prompt query (page_content doc)) in
      let '(llm2, scored) := score_docs llm1 query rest in
      match parse_score response with
      | Some score => (llm2, (doc, score) :: scored)
      | None => (llm2, scored)
      end
  end.

(** [rerank_documents(query, docs, llm)] *)
Definition rerank_documents (query : string) (docs : list pyobj) (llm : judge)
    : list Document :=
  map fst (PySort.sort_desc snd (score_docs llm query docs).2).

(** What the judge answered for each element of [docs], in order: nothing
    is asked for an element that is no [Document]. *)
Fixpoint transcript (llm : judge) (query : string) (docs : list pyobj)
    : list (pyobj * option (result string)) :=
  match docs with
  | [] => []
  | NotDocument :: rest => (NotDocument, None) :: transcript llm query rest
  | IsDocument doc :: rest =>
      let r := invoke llm (relevance_prompt query (page_content doc)) in
      (IsDocument doc, Some r.2) :: transcript r.1 query rest
  end.

(** The candidates of a transcript whose answer reads as an integer *)
Fixpoint accepted (t : list (pyobj * option (result string)))
    : list (Document * Z) :=
  match t with
  | [] => []
  | (IsDocument doc, Some r) :: t' =>
      match parse_score r with
      | Some z => (doc, z) :: accepted t'
      | None => accepted t'
      end
  | _ :: t' => accepted t'
  end.

End Rerank.

(** ** Similarity search *)

Section Search.

Variable float32 : Type.
Variable params : Type.
Variable code : Type.
(** Approximate distance between a query and a stored code; a
    non-negative float is represented by its rank (its bit pattern). *)
Variable adist : params -> list float32 -> code -> N.

(** Modelled from the spec: [QuantizedIndex.search(query_vector, k)].  The
    search runs inside the faiss library, of which the repository holds
    only the calls ([similarity_search], [as_retriever]); section 4.3 of
    the specification gives its contract: positions with their approximate
    distances, ascending by distance, at most [k] of them, ties broken by
    ascending position; an untrained index, a query of another dimension
    and [k <= 0] are usage errors. *)
Definition search (idx : IndexIVFPQ params code) (q : list float32) (k : Z)
    : result (list (nat * N)) :=
  match trained idx with
  | None => Raise FaissError
  | Some p =>
      if negb (length q =? d idx) then Raise AssertionError
      else if (k <=? 0)%Z then Raise ValueError
      else Ok (take (Z.to_nat k)
                 (PySort.sort_by N.leb snd
                    (enumerate (map (adist p q) (codes idx)))))
  end.

End Search.

(** ** Sample inputs *)

(** A judge that reads its answers from a script, one per call *)
Definition scripted_judge : Type := list string.

Definition scripted_invoke (llm : scripted_judge) (prompt : string)
    : scripted_judge * result string :=
  match llm with
  | answer :: rest => (rest, Ok answer)
  | [] => ([], Raise ProviderError)
  end.

Definition doc_with_category (content category : string) : Document :=
  mkDocument content (dict_of_pairs [("category", CStr category)]).

Definition headphone_review : Document :=
  doc_with_category "Great bass, comfortable ear cups" "headphones".

(** A toy instance of the numeric kernels: integer coordinates, the
    training set as the trained state, vectors stored as they are, and the
    squared distance. *)
Definition toy_fit (dim : nat) (rows : list (list Z)) : option (list (list Z)) :=
  Some rows.

Definition toy_encode (p : list (list Z)) (v : list Z) : list Z := v.

Fixpoint toy_adist_go (q c : list Z) : Z :=
  match q, c with
  | x :: q', y :: c' => ((x - y) * (x - y) + toy_adist_go q' c')%Z
  | _, _ => 0%Z
  end.

Definition toy_adist (p : list (list Z)) (q c : list Z) : N :=
  Z.to_N (toy_adist_go q c).

(** A toy provider: one vector of dimension 8 per text *)
Definition toy_embed_documents (texts : list string) : result (list (list Z)) :=
  Ok (map (fun t => Z.of_nat (String.length t) :: repeat 0%Z 7) texts).

Definition toy_store :=
  store_in_vector_db Z Z (fun x => x) (list (list Z)) (list Z)
    toy_fit toy_encode toy_embed_documents.

Definition empty_world : world Z (list (list Z)) (list Z) :=
  {| cache_file := None; faiss_index_dir := None; trace := [] |}.

(** A cache file left by an earlier build of 40 vectors *)
Definition stale_cache : ndarray Z := Arr2 8 (repeat (repeat 0%Z 8) 40).

Definition stale_world : world Z (list (list Z)) (list Z) :=
  {| cache_file := Some stale_cache; faiss_index_dir := None; trace := [] |}.

Definition forty_reviews : list Document :=
  map (fun i => doc_with_category ("review " +:+ Py.str_of_nat i) "headphones")
      (seq 0 40).

(** A stricter toy clustering: the codebooks of a product quantizer
    with [nbits = 8] have 256 centroids each, and a training set of fewer
    points is refused. *)
Definition pq_fit (dim : nat) (rows : list (list Z))
    : option (list (list Z)) :=
  if length rows <? 256 then None else Some rows.

Definition pq_store :=
  store_in_vector_db Z Z (fun x => x) (list (list Z)) (list Z)
    pq_fit toy_encode toy_embed_documents.

(** A cache file left by an earlier build of 256 different vectors *)
Definition large_stale_cache : ndarray Z :=
  Arr2 8 (map (fun i => Z.of_nat i :: repeat 0%Z 7) (seq 0 256)).

Definition large_stale_world : world Z (list (list Z)) (list Z) :=
  {| cache_file := Some large_stale_cache; faiss_index_dir := None;
     trace := [] |}.

Definition reviews_256 : list Document :=
  map (fun i => doc_with_category ("review " +:+ Py.str_of_nat i) "headphones")
      (seq 0 256).

(** A review of 513 characters *)
Definition long_review : string := string_of_list_ascii (repeat "a"%char 513).

Definition long_review_row : row :=
  {| Title := CStr "Headset X"; Rating := CNum "4.5"; Price := CStr "1999";
     Reviews := CStr long_review; URL := None;
     Category := Some (CStr "headphones") |}.

(** A trained toy index of three vectors of dimension 2 *)
Definition toy_index : IndexIVFPQ (list (list Z)) (list Z) :=
  {| d := 2; nlist := 40; pq_M := 8; pq_nbits := 8; is_trained := true;
     trained := Some []; ntotal := 3;
     codes := [[1; 1]; [0; 0]; [1; 1]]%Z |}.

(** A table row with two reviews between blank pieces, and one without
    reviews *)
Definition two_review_row : row :=
  {| Title := CStr "Headset X"; Rating := CNum "4.5"; Price := CStr "1999";
     Reviews := CStr "great sound;  ; battery lasts long ;"; URL := None;
     Category := Some (CStr "headphones") |}.

Definition no_review_row : row :=
  {| Title := CStr "Phone Y"; Rating := CNaN; Price := CStr "9999";
     Reviews := CNaN; URL := None; Category := None |}.

(** ** The scraper's categories

    [main] of [amazon_data_scraper.py] scrapes four categories, each with
    its search query; [scrape_amazon] writes the search query into the
    [Category] column of every product it saves. *)
Definition scraper_categories : list (string * string) :=
  [("Mobiles", "smartphones");
   ("Headphones", "headphones");
   ("TV", "led smart tv");
   ("Smart Watches", "smartwatch")].

(** ** The [Retriever] object and the chat chain of [main.py] *)

Section Serving.

Variable float32 : Type.
Variable params : Type.
Variable code : Type.

(** What [vstore.as_retriever(search_kwargs={"k": top_k})] returns: the
    store it searches and the number of results it asks for *)
Record VectorStoreRetriever : Type := mkRetriever {
  vectorstore : VectorStore params code;
  search_k : Z
}.

(** The fields of a [Retriever] that [load_retriever] reads and writes;
    [config] is the dictionary that [load_config()] returned. *)
Record Retriever : Type := mkRetrieverObject {
  config : gmap string (gmap string Z);
  vstore : option (VectorStore params code);
  retriever : option VectorStoreRetriever
}.

(** The fields after [__init__] *)
Definition new_Retriever (cfg : gmap string (gmap string Z)) : Retriever :=
  {| config := cfg; vstore := None; retriever := None |}.

(** [self.config.get("retriever", {}).get("top_k", 50)] *)
Definition config_top_k (cfg : gmap string (gmap string Z)) : Z :=
  default 50%Z (default ∅ (cfg !! "retriever") !! "top_k").

(** A method: it may change the object and the world, and may raise. *)
Definition method (A : Type) : Type :=
  Retriever -> world float32 params code ->
  Retriever * world float32 params code * result A.

(** [Retriever.load_retriever] *)
Definition load_retriever : method VectorStoreRetriever :=
  fun self w =>
    let loaded :=
      match vstore self with
      | Some v => (self, w, Ok v)
      | None =>
          match load_faiss_index float32 params code w with
          | (w1, Ok v) =>
              ({| config := config self; vstore := Some v;
                  retriever := retriever self |}, w1, Ok v)
          | (w1, Raise e) => (self, w1, Raise e)
          end
      end in
    match loaded with
    | (self1, w1, Raise e) => (self1, w1, Raise e)
    | (self1, w1, Ok v) =>
        match retriever self1 with
        | Some r => (self1, w1, Ok r)
        | None =>
            let top_k := config_top_k (config self1) in
            let r := {| vectorstore := v; search_k := top_k |} in
            ({| config := config self1; vstore := vstore self1;
                retriever := Some r |}, w1, Ok r)
        end
    end.

(** [retriever.invoke(query)]: the search of the library, which embeds the
    query and may raise *)
Variable retriever_invoke : VectorStoreRetriever -> string ->
                            result (list Document).

(** [Retriever.call_retriever] *)
Definition call_retriever (query : string) : method (list Document) :=
  fun self w =>
    match load_retriever self w with
    | (self1, w1, Ok r) => (self1, w1, retriever_invoke r query)
    | (self1, w1, Raise e) => (self1, w1, Raise e)
    end.

(** [PROMPT_TEMPLATES["product_bot"]] with its two fields filled in *)
Definition product_bot_prompt (context question : string) : string :=
  newline
  +:+ "    You are an expert EcommerceBot specialized in product recommendations and handling customer queries."
  +:+ newline
  +:+ "    Analyze the provided product titles, ratings, reviews, categories, and prices to provide accurate, helpful, and relevant responses."
  +:+ newline
  +:+ "    Ensure your answers are concise, informative, and tailored to the user's question and the provided context."
  +:+ newline +:+ newline
  +:+ "    CONTEXT:" +:+ context +:+ newline +:+ newline
  +:+ "    QUESTION: " +:+ question +:+ newline +:+ newline
  +:+ "    YOUR ANSWER:" +:+ newline +:+ "    ".

Definition no_context_notice : string :=
  "No relevant documents found. Responding based on general knowledge.".

Definition apology : string :=
  "I'm sorry, an error occurred while processing your request. Please try again or rephrase your query.".

(** [model_loader.load_llm()]: the language model, or the exception
    raised while it is built.  The model behind the chain
    [prompt | llm | StrOutputParser()] answers a prompt with a text or
    raises. *)
Variable load_llm : result (string -> result string).

(** [invoke_chain(query)] of [main.py], on the module's [retriever_obj].
    The retriever and the model are loaded before the first [try]: what
    they raise leaves the function (the prompt between them is built from
    a constant template).  What the search raises is replaced by the
    notice, what the chain raises by the apology. *)
Definition invoke_chain (query : string) : method string :=
  fun self w =>
    match load_retriever self w with
    | (self1, w1, Raise e) => (self1, w1, Raise e)
    | (self1, w1, Ok r) =>
        match load_llm with
        | Raise e => (self1, w1, Raise e)
        | Ok llm =>
            let context :=
              match retriever_invoke r query with
              | Ok retrieved_docs =>
                  Py.join newline (map page_content retrieved_docs)
              | Raise _ => no_context_notice
              end in
            match llm (product_bot_prompt context query) with
            | Ok output => (self1, w1, Ok output)
            | Raise _ => (self1, w1, Ok apology)
            end
        end
    end.

End Serving.

Arguments mkRetriever {params code}.
Arguments vectorstore {params code} _.
Arguments search_k {params code} _.
Arguments mkRetrieverObject {params code}.
Arguments config {params code} _.
Arguments vstore {params code} _.
Arguments retriever {params code} _.
Arguments new_Retriever {params code} cfg.
Arguments load_retriever {float32 params code}.
Arguments call_retriever {float32 params code}.
Arguments invoke_chain {float32 params code}.

(** A toy search: the first [k] documents of the store; and a toy model
    that repeats its prompt *)
Definition toy_retriever_invoke
    (r : VectorStoreRetriever (list (list Z)) (list Z)) (query : string)
    : result (list Document) :=
  if String.eqb query "" then Raise ProviderError
  else Ok (omap (fun i => docstore (vectorstore r) !! Py.str_of_nat i)
             (seq 0 (Z.to_nat (search_k r)))).

Definition toy_llm_answer (prompt : string) : result string := Ok prompt.

(** ** The scraper: collecting review texts *)

(** The loop over the review blocks of a page in [scrape_reviews]
    ([for review in review_divs], three times in the function with the same
    body): each block comes with the stripped text of its review element,
    or with none when no selector finds one; a text is kept while fewer
    than [max_reviews = 100] are there. *)
Fixpoint collect_reviews (reviews : list string)
    (review_texts : list (option string)) : list string :=
  match review_texts with
  | [] => reviews
  | t :: rest =>
      let review_text := default "No text" t in
      if negb (String.eqb review_text "No text") && (length reviews <? 100)
      then collect_reviews (reviews ++ [review_text]) rest
      else collect_reviews reviews rest
  end.

(** The texts of the blocks in which a review element was found *)
Fixpoint found_texts (review_texts : list (option string)) : list string :=
  match review_texts with
  | [] => []
  | Some s :: rest => s :: found_texts rest
  | None :: rest => found_texts rest
  end.

(** The value [scrape_reviews] returns for the collected texts:
    ["; ".join(reviews) if reviews else "No reviews found"] *)
Definition reviews_result (reviews : list string) : string :=
  match reviews with
  | [] => "No reviews found"
  | _ :: _ => Py.join "; " reviews
  end.

(** ** [data_cleaning.py] *)

(** A table: its column names and its rows, one dictionary per row *)
Record DataFrame : Type := mkDataFrame {
  columns : list string;
  records : list (gmap string cell)
}.

Definition invalid_reviews : list string :=
  ["n|a"; "review not found"; ""; "no reviews found"; "na"; "n/a"; "nan";
   "none"].

(** [.astype(str).str.strip().str.lower()] on one cell *)
Definition normalise_review (c : cell) : string :=
  Py.lower (Py.strip (str_of_cell c)).

(** [df['Reviews'] = df['Reviews'].astype(str).str.strip().str.lower()] on
    one row *)
Definition normalise_row (r : gmap string cell) : gmap string cell :=
  <["Reviews" := CStr (normalise_review (default CNaN (r !! "Reviews")))]> r.

(** [row['Reviews'] in invalid_reviews] *)
Definition has_invalid_review (r : gmap string cell) : bool :=
  match r !! "Reviews" with
  | Some (CStr s) => existsb (String.eqb s) invalid_reviews
  | _ => false
  end.

(** The body of the loop over the files: the cleaned table
    [df_cleaned]; a table without a [Reviews] column raises [KeyError]. *)
Definition clean_reviews (df : DataFrame) : result DataFrame :=
  if existsb (String.eqb "Reviews") (columns df) then
    Ok {| columns := columns df;
          records := List.filter (fun r => negb (has_invalid_review r))
                       (map normalise_row (records df)) |}
  else Raise KeyError.

(** [valid_counts[category]] *)
Definition valid_count (df : DataFrame) : result nat :=
  match clean_reviews df with
  | Ok cleaned => Ok (length (records cleaned))
  | Raise e => Raise e
  end.

(** A raw table of three products: one with reviews, one without, one
    for which the scraper found none *)
Definition raw_frame : DataFrame :=
  {| columns := ["Title"; "Price"; "Rating"; "ASIN"; "Reviews"; "Category"];
     records :=
       [dict_of_pairs [("Title", CStr "Headset X");
                       ("Reviews", CStr "  Great bass; Too QUIET ");
                       ("Category", CStr "headphones")];
        dict_of_pairs [("Title", CStr "Headset Y"); ("Reviews", CNaN);
                       ("Category", CStr "headphones")];
        dict_of_pairs [("Title", CStr "Headset Z");
                       ("Reviews", CStr (reviews_result []));
                       ("Category", CStr "headphones")]] |}.

(** ** [log_review_statistics]: the estimate of a row

    [lambda x: len(str(x).split(';'))] *)
Definition estimated_review_count (x : cell) : nat :=
  length (Py.split ";" (str_of_cell x)).

(** * Properties *)

(** ** Python built-ins, on examples *)

Example lower_ex : Py.lower "Smart WATCH" = "smart watch".
Proof. reflexivity. Qed.

Example strip_ex : Py.strip "  a b  " = "a b".
Proof. reflexivity. Qed.

Example split_ex : Py.split ";" "a;;b c;" = ["a"; ""; "b c"; ""].
Proof. reflexivity. Qed.

Example int_ex :
  Py.int " 9 " = Some 9%Z /\ Py.int "15" = Some 15%Z
  /\ Py.int "-3" = Some (-3)%Z /\ Py.int "1_0" = Some 10%Z
  /\ Py.int "9/10" = None /\ Py.int "" = None /\ Py.int "8." = None
  /\ Py.int "_1" = None /\ Py.int "+" = None.
Proof. repeat split; reflexivity. Qed.

Example str_of_nat_ex : Py.str_of_nat 12 = "12".
Proof. reflexivity. Qed.

Example split_text_ex :
  TextSplitter.split_text
    {| TextSplitter.chunk_size := 10; TextSplitter.chunk_overlap := 3;
       TextSplitter.separators := [" "; ""] |}
    "aaa bbb ccc ddd eee fffffffffffffffff g"
  = ["aaa bbb"; "ccc ddd"; "eee"; "fffffffff"; "ffffffffff"; "ffff"; "g"].
Proof. reflexivity. Qed.

(** ** Strings *)

Lemma append_cons (c : ascii) (a b : string) :
  String c a +:+ b = String c (a +:+ b).
Proof. reflexivity. Qed.

Lemma append_nil (b : string) : EmptyString +:+ b = b.
Proof. reflexivity. Qed.

Lemma prefix_app (p s : string) :
  String.prefix p s = true <-> exists v, s = p +:+ v.
Proof.
  revert s. induction p as [|a p IH]; intros s.
  - split; [intros _; exists s; reflexivity | intros _; now destruct s].
  - destruct s as [|b s]; simpl.
    + split; [discriminate | intros [v Hv]; discriminate Hv].
    + destruct (ascii_dec a b) as [->|Hne].
      * rewrite IH. split; intros [v Hv]; exists v;
          rewrite append_cons in *; congruence.
      * split; [discriminate|].
        intros [v Hv]. rewrite append_cons in Hv. congruence.
Qed.

Lemma contains_eq (p s : string) :
  Py.contains p s
  = String.prefix p s
    || match s with
       | EmptyString => false
       | String _ s' => Py.contains p s'
       end.
Proof. destruct s as [|c s]; cbn [Py.contains]; now destruct (String.prefix p). Qed.

Lemma contains_app (p s : string) :
  Py.contains p s = true <-> exists u v, s = u +:+ p +:+ v.
Proof.
  induction s as [|c s IH]; rewrite contains_eq, orb_true_iff, prefix_app.
  - split.
    + intros [[v Hv]|H]; [|discriminate]. exists EmptyString, v. exact Hv.
    + intros (u & v & H). left. destruct u; [|discriminate H]. eauto.
  - rewrite IH. split.
    + intros [[v Hv]|(u & v & ->)].
      * exists EmptyString, v. exact Hv.
      * exists (String c u), v. reflexivity.
    + intros (u & v & H). destruct u as [|c' u].
      * left. eauto.
      * right. rewrite append_cons in H. injection H as -> ->. eauto.
Qed.

Lemma append_assoc (a b c : string) : (a +:+ b) +:+ c = a +:+ (b +:+ c).
Proof.
  induction a as [|x a IH]; [reflexivity|].
  rewrite !append_cons. now rewrite IH.
Qed.

(** A query that contains a keyword contains every part of it. *)
Lemma contains_part (a b c s : string) :
  Py.contains (a +:+ b +:+ c) s = true -> Py.contains b s = true.
Proof.
  rewrite !contains_app. intros (u & v & ->).
  exists (u +:+ a), (c +:+ v). now rewrite !append_assoc.
Qed.

Lemma smartwatch_is_watch (s : string) :
  Py.contains "watch" s || Py.contains "smartwatch" s = Py.contains "watch" s.
Proof.
  destruct (Py.contains "watch" s) eqn:E; [reflexivity|]. simpl.
  destruct (Py.contains "smartwatch" s) eqn:E'; [|reflexivity].
  apply (contains_part "smart" "watch" "") in E'. congruence.
Qed.

Lemma lower_char_idemp (c : ascii) :
  Py.lower_char (Py.lower_char c) = Py.lower_char c.
Proof. destruct c as [[] [] [] [] [] [] [] []]; reflexivity. Qed.

Lemma lower_idemp (s : string) : Py.lower (Py.lower s) = Py.lower s.
Proof.
  induction s as [|c s IH]; simpl; [reflexivity|].
  now rewrite lower_char_idemp, IH.
Qed.

(** ** Category detection *)

Lemma detect_category_same (query : string) :
  Ingestion.detect_category_from_query query
  = Retrieval.detect_category_from_query query.
Proof.
  unfold Ingestion.detect_category_from_query,
    Retrieval.detect_category_from_query.
  cbv zeta. now rewrite smartwatch_is_watch.
Qed.



Lemma detect_category_closed (query : string) :
  In (Retrieval.detect_category_from_query query)
     ["headphones"; "mobiles"; "smart_watches"; "tv"; "unknown"].
Proof.
  unfold Retrieval.detect_category_from_query. cbv zeta.
  repeat (match goal with
          | |- context [if ?b then _ else _] => destruct b
          end); simpl; auto 10.
Qed.




(** ** The two query scripts *)

(** C5: in the script of [retrieval.py], when a category was detected and
    no retrieved document carries it, the unfiltered results are used; when
    some do, the filtered results are used. *)
Theorem category_filter_fallback (user_query : string) (results : list Document) :
  Retrieval.detect_category_from_query user_query <> "unknown" ->
  (List.filter (has_category (Retrieval.detect_category_from_query user_query))
     results = [] ->
   Retrieval.category_filtered_results user_query results = results)
  /\ (List.filter (has_category (Retrieval.detect_category_from_query user_query))
        results <> [] ->
      Retrieval.category_filtered_results user_query results
      = List.filter (has_category (Retrieval.detect_category_from_query user_query))
          results).
Proof.
  intros Hcat. unfold Retrieval.category_filtered_results. cbv zeta.
  destruct (String.eqb_spec (Retrieval.detect_category_from_query user_query)
              "unknown") as [E|_]; [contradiction|].
  cbn [negb]. split; intros H.
  - now rewrite H.
  - destruct (List.filter _ results); [contradiction | reflexivity].
Qed.

Lemma category_filter_fallback_witness :
  Retrieval.category_filtered_results "cheap smartwatch under 2000"
    [headphone_review] = [headphone_review].
Proof.
  apply (category_filter_fallback "cheap smartwatch under 2000"
           [headphone_review]).
  - vm_compute. discriminate.
  - vm_compute. reflexivity.
Defined.

(** C5, the script of [ingestion_pipeline.py]: with the same query and
    the same retrieved documents nothing is printed but a notice. *)
Lemma ingestion_script_no_fallback :
  Ingestion.detect_category_from_query "cheap smartwatch under 2000"
    = "smart_watches"
  /\ List.filter (has_category "smart_watches") [headphone_review] = []
  /\ Ingestion.printed_results "cheap smartwatch under 2000" [headphone_review]
     = []
  /\ Ingestion.printed_results "cheap smartwatch under 2000" [headphone_review]
     <> [headphone_review].
Proof. repeat split; try (vm_compute; reflexivity). vm_compute. discriminate. Qed.

(** ** Stable sorting *)

Section SortFacts.
Context {A K : Type} (leb : K -> K -> bool) (key : A -> K).
Hypothesis leb_total : forall a b, leb a b = true \/ leb b a = true.
Hypothesis leb_trans :
  forall a b c, leb a b = true -> leb b c = true -> leb a c = true.

Let before (x y : A) : Prop := leb (key x) (key y) = true.

Lemma insert_by_perm (x : A) (l : list A) :
  Permutation (PySort.insert_by leb key x l) (x :: l).
Proof.
  induction l as [|y l IH]; simpl; [reflexivity|].
  destruct (leb (key x) (key y)); [reflexivity|].
  rewrite IH. apply perm_swap.
Qed.

Lemma sort_by_perm (l : list A) : Permutation (PySort.sort_by leb key l) l.
Proof.
  induction l as [|x l IH]; simpl; [reflexivity|].
  rewrite insert_by_perm. now apply perm_skip.
Qed.

Lemma insert_by_sorted (x : A) (l : list A) :
  StronglySorted before l ->
  StronglySorted before (PySort.insert_by leb key x l).
Proof.
  induction 1 as [|y l Hl IH Hy]; simpl.
  - constructor; constructor.
  - destruct (leb (key x) (key y)) eqn:E.
    + constructor; [now constructor|].
      constructor; [exact E|].
      eapply List.Forall_impl; [|exact Hy].
      intros z Hz. unfold before in *. eauto.
    + constructor; [exact IH|].
      assert (Hyx : before y x)
        by (destruct (leb_total (key x) (key y)); [congruence | assumption]).
      rewrite List.Forall_forall. intros z Hz.
      apply (Permutation_in _ (insert_by_perm x l)) in Hz.
      destruct Hz as [<-|Hz]; [exact Hyx|].
      rewrite List.Forall_forall in Hy. now apply Hy.
Qed.

Lemma sort_by_sorted (l : list A) :
  StronglySorted before (PySort.sort_by leb key l).
Proof.
  induction l as [|x l IH]; simpl; [constructor | now apply insert_by_sorted].
Qed.

Lemma insert_by_stable (k : K) (x : A) (l : list A) :
  List.filter (PySort.same_key leb key k) (PySort.insert_by leb key x l)
  = List.filter (PySort.same_key leb key k) (x :: l).
Proof.
  induction l as [|y l IH]; [reflexivity|].
  cbn [PySort.insert_by]. destruct (leb (key x) (key y)) eqn:E; [reflexivity|].
  cbn [List.filter] in *. rewrite IH.
  destruct (PySort.same_key leb key k x) eqn:Ex,
    (PySort.same_key leb key k y) eqn:Ey; try reflexivity.
  unfold PySort.same_key in Ex, Ey.
  apply andb_true_iff in Ex as [Ex _]. apply andb_true_iff in Ey as [_ Ey].
  rewrite (leb_trans _ _ _ Ex Ey) in E. discriminate.
Qed.

Lemma sort_by_stable (k : K) (l : list A) :
  List.filter (PySort.same_key leb key k) (PySort.sort_by leb key l)
  = List.filter (PySort.same_key leb key k) l.
Proof.
  induction l as [|x l IH]; [reflexivity|].
  cbn [PySort.sort_by foldr]. fold (PySort.sort_by leb key l).
  rewrite insert_by_stable. cbn [List.filter]. now rewrite IH.
Qed.

End SortFacts.

Lemma filter_ext_eq {A} (f g : A -> bool) (l : list A) :
  (forall a, f a = g a) -> List.filter f l = List.filter g l.
Proof.
  intros H. induction l as [|x l IH]; simpl; [reflexivity|].
  now rewrite H, IH.
Qed.

Lemma StronglySorted_weaken {A} (R R' : A -> A -> Prop) (l : list A) :
  (forall a b, R a b -> R' a b) ->
  StronglySorted R l -> StronglySorted R' l.
Proof.
  intros HR. induction 1 as [|x l Hl IH Hx]; constructor; [exact IH|].
  eapply List.Forall_impl; [|exact Hx]. intros b. apply HR.
Qed.

Lemma sort_desc_perm {A} (key : A -> Z) (l : list A) :
  Permutation (PySort.sort_desc key l) l.
Proof. apply sort_by_perm. Qed.

Lemma sort_desc_sorted {A} (key : A -> Z) (l : list A) :
  StronglySorted (fun a b => (key b <= key a)%Z) (PySort.sort_desc key l).
Proof.
  eapply StronglySorted_weaken; [|apply sort_by_sorted].
  - intros a b H. cbv beta in H. now apply Z.leb_le in H.
  - intros a b. lia.
  - intros a b c. rewrite !Z.leb_le. lia.
Qed.

Lemma sort_desc_stable {A} (key : A -> Z) (z : Z) (l : list A) :
  List.filter (fun a => (key a =? z)%Z) (PySort.sort_desc key l)
  = List.filter (fun a => (key a =? z)%Z) l.
Proof.
  assert (E : forall a, (key a =? z)%Z
                        = PySort.same_key (fun a b => Z.leb b a) key z a).
  { intros a. unfold PySort.same_key. lia. }
  rewrite !(filter_ext_eq _ _ _ E). apply sort_by_stable.
  intros a b c. rewrite !Z.leb_le. lia.
Qed.

(** ** Reranking *)

Section RerankFacts.
Variable judge : Type.
Variable invoke : judge -> string -> judge * result string.

Lemma score_docs_transcript (llm : judge) (query : string) (docs : list pyobj) :
  (score_docs judge invoke llm query docs).2
  = accepted (transcript judge invoke llm query docs).
Proof.
  revert llm. induction docs as [|[doc|] docs IH]; intros llm.
  - reflexivity.
  - cbn [score_docs transcript accepted].
    destruct (invoke llm _) as [llm1 response]. cbn [fst snd].
    specialize (IH llm1).
    destruct (score_docs judge invoke llm1 query docs) as [llm2 scored].
    cbn [snd] in IH.
    destruct (parse_score response); cbn [snd]; now rewrite IH.
  - cbn [score_docs transcript accepted]. apply IH.
Qed.

Lemma accepted_In (t : list (pyobj * option (result string)))
    (doc : Document) (z : Z) :
  In (doc, z) (accepted t)
  <-> exists r, In (IsDocument doc, Some r) t /\ parse_score r = Some z.
Proof.
  induction t as [|[[doc'|] [r'|]] t IH]; cbn [accepted].
  - split; [intros [] | intros (r & [] & _)].
  - destruct (parse_score r') as [z'|] eqn:E.
    + cbn [In]. rewrite IH. split.
      * intros [H|(r & Hin & Hr)]; [injection H as -> ->; eauto|eauto].
      * intros (r & [H|Hin] & Hr); [left; congruence | eauto].
    + cbn [In]. rewrite IH. split.
      * intros (r & Hin & Hr); eauto.
      * intros (r & [H|Hin] & Hr); [congruence | eauto].
  - cbn [In]. rewrite IH. split.
    + intros (r & Hin & Hr); eauto.
    + intros (r & [H|Hin] & Hr); [discriminate | eauto].
  - cbn [In]. rewrite IH. split.
    + intros (r & Hin & Hr); eauto.
    + intros (r & [H|Hin] & Hr); [discriminate | eauto].
  - cbn [In]. rewrite IH. split.
    + intros (r & Hin & Hr); eauto.
    + intros (r & [H|Hin] & Hr); [discriminate | eauto].
Qed.

(** C4: [rerank_documents] keeps exactly the candidates whose answer reads
    as an integer, whatever its value; every other candidate is left out
    and the remaining ones are still scored and returned. *)
Theorem rerank_keeps_parsed (query : string) (docs : list pyobj) (llm : judge) :
  (score_docs judge invoke llm query docs).2
    = accepted (transcript judge invoke llm query docs)
  /\ Permutation (rerank_documents judge invoke query docs llm)
       (map fst (accepted (transcript judge invoke llm query docs)))
  /\ forall doc,
       In doc (rerank_documents judge invoke query docs llm)
       <-> exists r z,
             In (IsDocument doc, Some r) (transcript judge invoke llm query docs)
             /\ parse_score r = Some z.
Proof.
  assert (P : Permutation (rerank_documents judge invoke query docs llm)
                (map fst (accepted (transcript judge invoke llm query docs)))).
  { unfold rerank_documents. rewrite score_docs_transcript.
    apply Permutation_map, sort_desc_perm. }
  split; [apply score_docs_transcript|]. split; [exact P|].
  intros doc. split.
  - intros H. apply (Permutation_in _ P) in H.
    apply in_map_iff in H as ([doc' z] & <- & H).
    apply accepted_In in H as (r & Hin & Hr). eauto.
  - intros (r & z & Hin & Hr).
    apply (Permutation_in _ (Permutation_sym P)).
    apply in_map_iff. exists (doc, z). split; [reflexivity|].
    apply accepted_In. eauto.
Qed.

(** C8: the output of [rerank_documents] lists the scored candidates by
    descending score, and candidates with one score keep the order in
    which they were retrieved. *)
Theorem rerank_stable_descending (query : string) (docs : list pyobj)
    (llm : judge) :
  let scored := (score_docs judge invoke llm query docs).2 in
  exists ranked : list (Document * Z),
    rerank_documents judge invoke query docs llm = map fst ranked
    /\ Permutation ranked scored
    /\ StronglySorted (fun a b => (b.2 <= a.2)%Z) ranked
    /\ (forall z, List.filter (fun p => (p.2 =? z)%Z) ranked
                  = List.filter (fun p => (p.2 =? z)%Z) scored)
    /\ forall A B C : Document,
         rerank_documents scripted_judge scripted_invoke query
           [IsDocument A; IsDocument B; IsDocument C] ["3"; "9"; "9"]
         = [B; C; A].
Proof.
  intros scored. exists (PySort.sort_desc snd scored).
  split; [reflexivity|].
  split; [apply sort_desc_perm|].
  split; [apply (sort_desc_sorted (A := Document * Z) snd)|].
  split; [intros z; apply (sort_desc_stable (A := Document * Z) snd)|].
  intros A B C. reflexivity.
Qed.

End RerankFacts.

(** C4, as first stated: an answer outside 1..10 does not remove the
    candidate.  The judge answers 15 and the review is returned. *)
Lemma rerank_out_of_range_kept :
  transcript scripted_judge scripted_invoke ["15"] "any headphones?"
    [IsDocument headphone_review]
  = [(IsDocument headphone_review, Some (Ok "15"))]
  /\ parse_score (Ok "15") = Some 15%Z
  /\ ~ (1 <= 15 <= 10)%Z
  /\ rerank_documents scripted_judge scripted_invoke "any headphones?"
       [IsDocument headphone_review] ["15"]
     = [headphone_review].
Proof. repeat split; try reflexivity. lia. Qed.

(** ** Dictionaries built from enumerations *)

Lemma dict_of_pairs_snoc {K V} `{Countable K} (l : list (K * V)) (k : K) (v : V) :
  dict_of_pairs (l ++ [(k, v)]) = <[k := v]> (dict_of_pairs l).
Proof. unfold dict_of_pairs. now rewrite foldl_app. Qed.

Lemma enumerate_snoc {A} (l : list A) (x : A) :
  enumerate (l ++ [x]) = enumerate l ++ [(length l, x)].
Proof.
  unfold enumerate. rewrite imap_app. cbn [imap].
  now rewrite Nat.add_0_r.
Qed.

Lemma str_of_nat_inj (i j : nat) : Py.str_of_nat i = Py.str_of_nat j -> i = j.
Proof. unfold Py.str_of_nat. apply (inj pretty). Qed.

Lemma docstore_lookup (l : list Document) (i : nat) :
  dict_of_pairs (map (fun p => (Py.str_of_nat p.1, p.2)) (enumerate l))
    !! Py.str_of_nat i = l !! i.
Proof.
  induction l as [|x l IH] using rev_ind; [reflexivity|].
  rewrite enumerate_snoc, map_app. cbn [map fst snd].
  rewrite dict_of_pairs_snoc.
  destruct (decide (i = length l)) as [->|Hne].
  - rewrite lookup_insert_eq. symmetry. apply list_lookup_middle. reflexivity.
  - rewrite lookup_insert_ne by (intros E; apply str_of_nat_inj in E; congruence).
    rewrite IH. destruct (decide (i < length l)) as [Hlt|Hge].
    + now rewrite lookup_app_l.
    + rewrite !lookup_ge_None_2; [reflexivity| |lia].
      rewrite length_app. cbn. lia.
Qed.

Lemma docstore_keys (l : list Document) (k : string) (doc : Document) :
  dict_of_pairs (map (fun p => (Py.str_of_nat p.1, p.2)) (enumerate l)) !! k
    = Some doc ->
  exists i, k = Py.str_of_nat i /\ l !! i = Some doc.
Proof.
  induction l as [|x l IH] using rev_ind; [discriminate|].
  rewrite enumerate_snoc, map_app. cbn [map fst snd].
  rewrite dict_of_pairs_snoc.
  destruct (decide (k = Py.str_of_nat (length l))) as [->|Hne].
  - rewrite lookup_insert_eq. intros [= <-]. exists (length l).
    split; [reflexivity|]. apply list_lookup_middle. reflexivity.
  - rewrite lookup_insert_ne by congruence. intros H.
    destruct (IH H) as (i & -> & Hi). exists i. split; [reflexivity|].
    apply lookup_app_l_Some. exact Hi.
Qed.

Lemma docstore_size (l : list Document) :
  size (dict_of_pairs (map (fun p => (Py.str_of_nat p.1, p.2)) (enumerate l)))
  = length l.
Proof.
  induction l as [|x l IH] using rev_ind; [reflexivity|].
  rewrite enumerate_snoc, map_app. cbn [map fst snd].
  rewrite dict_of_pairs_snoc, map_size_insert_None.
  - rewrite IH, length_app. cbn. lia.
  - rewrite docstore_lookup. apply lookup_ge_None_2. lia.
Qed.

Lemma id_map_lookup (n i : nat) :
  dict_of_pairs (map (fun i => (i, Py.str_of_nat i)) (seq 0 n)) !! i
  = if i <? n then Some (Py.str_of_nat i) else None.
Proof.
  induction n as [|n IH]; [reflexivity|].
  rewrite seq_S, map_app. cbn [map Nat.add]. rewrite dict_of_pairs_snoc.
  destruct (decide (i = n)) as [->|Hne].
  - rewrite lookup_insert_eq.
    destruct (Nat.ltb_spec n (S n)); [reflexivity | lia].
  - rewrite lookup_insert_ne by congruence. rewrite IH.
    destruct (Nat.ltb_spec i n), (Nat.ltb_spec i (S n)); try reflexivity; lia.
Qed.

(** ** [store_in_vector_db] *)

Section StoreFacts.
Variable float : Type.
Variable float32 : Type.
Variable astype_float32 : float -> float32.
Variable params : Type.
Variable code : Type.
Variable fit : nat -> list (list float32) -> option params.
Variable encode : params -> list float32 -> code.
Variable embed_documents : list string -> result (list (list float)).

Local Abbreviation store :=
  (store_in_vector_db float float32 astype_float32 params code fit encode
     embed_documents).
Local Abbreviation np_array := (np_array float float32 astype_float32).
Local Abbreviation world := (world float32 params code).
Local Abbreviation array_of_run :=
  (array_of_run float float32 astype_float32 params code embed_documents).

Lemma store_ok_inv (documents : list Document) (w w' : world)
    (v : VectorStore params code) :
  store documents w = (w', Ok v) ->
  exists a w1 c rows p,
    array_of_run documents w a w1
    /\ a = Arr2 c rows
    /\ 40 <= length rows
    /\ fit c rows = Some p
    /\ index v = {| d := c; nlist := 40; pq_M := 8; pq_nbits := 8;
                    is_trained := true; trained := Some p;
                    ntotal := length rows; codes := map (encode p) rows |}
    /\ docstore v
       = dict_of_pairs (map (fun p => (Py.str_of_nat p.1, p.2))
                          (enumerate documents))
    /\ index_to_docstore_id v
       = dict_of_pairs (map (fun i => (i, Py.str_of_nat i))
                          (seq 0 (length documents)))
    /\ w' = save_local float32 params code v w1.
Proof.
  unfold store_in_vector_db, bind, get_world, effect, lift, ret.
  destruct (cache_file w) as [a|] eqn:Hc.
  - destruct a as [xs|c rows]; cbn -[Nat.ltb Nat.eqb]; [intros [=]|].
    rewrite Nat.eqb_refl. cbn -[Nat.ltb Nat.eqb].
    destruct (Nat.ltb_spec (length rows) 40) as [|Hn]; [intros [=]|].
    destruct (fit c rows) as [p|] eqn:Hf; [|intros [=]].
    cbn -[Nat.ltb Nat.eqb]. rewrite Nat.eqb_refl. cbn. intros [= <- <-].
    exists (Arr2 c rows), (log float32 params code NpLoad w), c, rows, p.
    repeat split; auto. left. auto.
  - destruct (embed_documents _) as [vectors|e] eqn:He; [|intros [=]].
    destruct (np_array vectors) as [a|e] eqn:Ha; [|intros [=]].
    destruct a as [xs|c rows]; cbn -[Nat.ltb Nat.eqb]; [intros [=]|].
    rewrite Nat.eqb_refl. cbn -[Nat.ltb Nat.eqb].
    destruct (Nat.ltb_spec (length rows) 40) as [|Hn]; [intros [=]|].
    destruct (fit c rows) as [p|] eqn:Hf; [|intros [=]].
    cbn -[Nat.ltb Nat.eqb]. rewrite Nat.eqb_refl. cbn. intros [= <- <-].
    eexists (Arr2 c rows), _, c, rows, p.
    repeat split; auto. right. split; [exact Hc|].
    exists vectors. auto.
Qed.


Lemma store_too_few (documents : list Document) (w w1 : world)
    (a : ndarray float32) :
  array_of_run documents w a w1 ->
  nrows a < 40 ->
  store documents w
  = (w1, Raise match a with
               | Arr1 _ => IndexError
               | Arr2 _ _ => TooFewTrainingPoints
               end).
Proof.
  intros Ha Hn.
  unfold store_in_vector_db, bind, get_world, effect, lift, ret.
  destruct Ha as [[Hc ->]|(Hc & vectors & He & Hv & ->)]; rewrite Hc.
  - destruct a as [xs|c rows]; cbn -[Nat.ltb Nat.eqb]; [reflexivity|].
    rewrite Nat.eqb_refl. cbn -[Nat.ltb Nat.eqb].
    cbn in Hn. destruct (Nat.ltb_spec (length rows) 40); [reflexivity | lia].
  - rewrite He, Hv.
    destruct a as [xs|c rows]; cbn -[Nat.ltb Nat.eqb]; [reflexivity|].
    rewrite Nat.eqb_refl. cbn -[Nat.ltb Nat.eqb].
    cbn in Hn. destruct (Nat.ltb_spec (length rows) 40); [reflexivity | lia].
Qed.

Lemma array_of_run_index_dir (documents : list Document) (w w1 : world)
    (a : ndarray float32) :
  array_of_run documents w a w1 -> faiss_index_dir w1 = faiss_index_dir w.
Proof. intros [[_ ->]|(_ & vectors & _ & _ & ->)]; reflexivity. Qed.

(** C6: a run whose array has fewer than 40 rows stops with an error: the
    one raised by [index.train] when the array is a matrix (and already at
    [shape[1]] when it has rank one); no index is added to or saved. *)
Theorem too_few_vectors_rejected (documents : list Document) (w w1 : world)
    (a : ndarray float32) :
  array_of_run documents w a w1 ->
  nrows a < 40 ->
  exists e,
    store documents w = (w1, Raise e)
    /\ faiss_index_dir w1 = faiss_index_dir w
    /\ ~ In SaveLocal (skipn (length (trace w)) (trace w1))
    /\ (forall c rows, a = Arr2 c rows -> e = TooFewTrainingPoints)
    /\ (forall xs, a = Arr1 xs -> e = IndexError).
Proof.
  intros Ha Hn. eexists. split; [apply (store_too_few _ _ _ _ Ha Hn)|].
  split; [apply (array_of_run_index_dir _ _ _ _ Ha)|].
  split.
  - destruct Ha as [[_ ->]|(_ & vectors & _ & _ & ->)]; cbn;
      rewrite <- ?List.app_assoc, drop_app_length; cbn; intuition discriminate.
  - split; intros; subst a; reflexivity.
Qed.


Lemma provider_calls_app (t1 t2 : list (event float32)) :
  provider_calls (t1 ++ t2) = provider_calls t1 ++ provider_calls t2.
Proof.
  induction t1 as [|[texts| |a|] t1 IH]; cbn; [reflexivity| |auto..].
  now rewrite IH.
Qed.

Lemma cache_writes_app (t1 t2 : list (event float32)) :
  cache_writes (t1 ++ t2) = cache_writes t1 ++ cache_writes t2.
Proof.
  induction t1 as [|[texts| |a|] t1 IH]; cbn; [reflexivity|auto..| |auto].
  now rewrite IH.
Qed.

Lemma store_world_cached (documents : list Document) (w : world)
    (a : ndarray float32) :
  cache_file w = Some a ->
  provider_calls (trace (store documents w).1) = provider_calls (trace w)
  /\ cache_writes (trace (store documents w).1) = cache_writes (trace w)
  /\ cache_file (store documents w).1 = Some a.
Proof.
  intros Hc.
  unfold store_in_vector_db, bind, get_world, effect, lift, ret. rewrite Hc.
  destruct a as [xs|c rows]; cbn -[Nat.ltb Nat.eqb].
  - rewrite provider_calls_app, cache_writes_app, ?app_nil_r. auto.
  - rewrite Nat.eqb_refl. cbn -[Nat.ltb Nat.eqb].
    destruct (length rows <? 40); cbn -[Nat.ltb Nat.eqb];
      [rewrite provider_calls_app, cache_writes_app, ?app_nil_r; auto|].
    destruct (fit c rows) as [p|]; cbn -[Nat.ltb Nat.eqb];
      [|rewrite provider_calls_app, cache_writes_app, ?app_nil_r; auto].
    rewrite Nat.eqb_refl. cbn.
    rewrite !provider_calls_app, !cache_writes_app, ?app_nil_r. auto.
Qed.

Lemma store_world_fresh (documents : list Document) (w : world) :
  cache_file w = None ->
  provider_calls (trace (store documents w).1)
  = provider_calls (trace w) ++ [map page_content documents]
  /\ forall vectors a,
       embed_documents (map page_content documents) = Ok vectors ->
       np_array vectors = Ok a ->
       cache_file (store documents w).1 = Some a
       /\ cache_writes (trace (store documents w).1)
          = cache_writes (trace w) ++ [a].
Proof.
  intros Hc.
  unfold store_in_vector_db, bind, get_world, effect, lift, ret. rewrite Hc.
  destruct (embed_documents _) as [vectors|e] eqn:He.
  2:{ cbn. rewrite provider_calls_app. split; [reflexivity|]. intros ? ? [=]. }
  destruct (np_array vectors) as [a|e] eqn:Ha.
  2:{ cbn. rewrite provider_calls_app. split; [reflexivity|].
      intros ? ? [= <-]. congruence. }
  destruct a as [xs|c rows]; cbn -[Nat.ltb Nat.eqb].
  - rewrite !provider_calls_app, !cache_writes_app, ?app_nil_r. cbn.
    split; [reflexivity|]. intros ? ? [= <-] Ha'. rewrite Ha in Ha'.
    injection Ha' as <-. auto.
  - rewrite Nat.eqb_refl. cbn -[Nat.ltb Nat.eqb].
    destruct (length rows <? 40); cbn -[Nat.ltb Nat.eqb].
    { rewrite !provider_calls_app, !cache_writes_app, ?app_nil_r. cbn.
      split; [reflexivity|]. intros ? ? [= <-] Ha'. rewrite Ha in Ha'.
      injection Ha' as <-. auto. }
    destruct (fit c rows) as [p|]; cbn -[Nat.ltb Nat.eqb].
    2:{ rewrite !provider_calls_app, !cache_writes_app, ?app_nil_r. cbn.
        split; [reflexivity|]. intros ? ? [= <-] Ha'. rewrite Ha in Ha'.
        injection Ha' as <-. auto. }
    rewrite Nat.eqb_refl. cbn.
    rewrite !provider_calls_app, !cache_writes_app, ?app_nil_r. cbn.
    rewrite ?app_nil_r.
    split; [reflexivity|]. intros ? ? [= <-] Ha'. rewrite Ha in Ha'.
    injection Ha' as <-. auto.
Qed.

(** C2: the cache is the file [cached_embeddings.npy] as a whole.  When
    the file exists the provider is not called and the file is not
    written again; when it does not exist the provider is called once,
    with the texts of all documents, and its vectors are written to the
    file. *)
Theorem embedding_cache_by_file (documents : list Document) (w : world) :
  (forall a, cache_file w = Some a ->
     provider_calls (trace (store documents w).1) = provider_calls (trace w)
     /\ cache_writes (trace (store documents w).1) = cache_writes (trace w)
     /\ cache_file (store documents w).1 = Some a)
  /\ (cache_file w = None ->
      provider_calls (trace (store documents w).1)
      = provider_calls (trace w) ++ [map page_content documents]
      /\ forall vectors a,
           embed_documents (map page_content documents) = Ok vectors ->
           np_array vectors = Ok a ->
           cache_file (store documents w).1 = Some a
           /\ cache_writes (trace (store documents w).1)
              = cache_writes (trace w) ++ [a]).
Proof.
  split; [intros a; apply store_world_cached | apply store_world_fresh].
Qed.

Lemma np_array_rows (vectors : list (list float)) (c : nat)
    (rows : list (list float32)) :
  np_array vectors = Ok (Arr2 c rows) ->
  rows = map (map astype_float32) vectors.
Proof.
  destruct vectors as [|x vectors]; cbn -[forallb]; [intros [=]|].
  destruct (forallb _ _); [|intros [=]]. now intros [= <- <-].
Qed.


(** The index of a successful run is trained and holds as many codes as
    it counts vectors. *)
Lemma store_index_populated (documents : list Document) (w w' : world)
    (v : VectorStore params code) :
  store documents w = (w', Ok v) ->
  is_trained (index v) = true
  /\ is_Some (trained (index v))
  /\ ntotal (index v) = length (codes (index v)).
Proof.
  intros Hrun.
  apply store_ok_inv in Hrun
    as (a & w1 & c & rows & p & _ & _ & _ & _ & Hi & _).
  rewrite Hi. cbn. rewrite length_map. eauto.
Qed.

Lemma store_cached_counts (documents : list Document) (w w' : world)
    (v : VectorStore params code) (a : ndarray float32) :
  cache_file w = Some a ->
  store documents w = (w', Ok v) ->
  ntotal (index v) = nrows a
  /\ size (docstore v) = length documents
  /\ (forall i, docstore v !! Py.str_of_nat i = documents !! i)
  /\ provider_calls (trace w') = provider_calls (trace w).
Proof.
  intros Hc Hrun.
  pose proof (store_world_cached documents w a Hc) as (Hp & _ & _).
  rewrite Hrun in Hp. cbn in Hp.
  apply store_ok_inv in Hrun
    as (a' & w1 & c & rows & p & Ha & -> & _ & _ & Hi & Hd & _ & _).
  destruct Ha as [[Hc' _]|[Hc' _]]; [|congruence].
  rewrite Hc in Hc'. injection Hc' as ->.
  rewrite Hi, Hd. cbn.
  split; [reflexivity|]. split; [apply docstore_size|].
  split; [intros i; apply docstore_lookup | exact Hp].
Qed.

(** C1: after a successful run the document store holds document [i]
    under the key [str(i)] and nothing else, the id map sends position [i]
    to [str(i)] for the positions of the documents, and loading the saved
    pair gives the same store back; when no cache file existed, the index
    holds the provider's vectors, encoded in the order of the documents;
    when a cache file existed, the index holds the rows of that file,
    encoded in the order of the file, whatever the documents are. *)
Theorem docstore_positions (documents : list Document) (w w' : world)
    (v : VectorStore params code) :
  store documents w = (w', Ok v) ->
  (forall i, docstore v !! Py.str_of_nat i = documents !! i)
  /\ (forall k doc, docstore v !! k = Some doc ->
        exists i, k = Py.str_of_nat i /\ documents !! i = Some doc)
  /\ size (docstore v) = length documents
  /\ (forall i, index_to_docstore_id v !! i
                = if i <? length documents then Some (Py.str_of_nat i) else None)
  /\ load_faiss_index float32 params code w' = (w', Ok v)
  /\ (cache_file w = None ->
      exists vectors p,
        embed_documents (map page_content documents) = Ok vectors
        /\ trained (index v) = Some p
        /\ ntotal (index v) = length vectors
        /\ codes (index v)
           = map (fun x => encode p (map astype_float32 x)) vectors)
  /\ (forall a, cache_file w = Some a ->
      exists c rows p,
        a = Arr2 c rows
        /\ trained (index v) = Some p
        /\ ntotal (index v) = length rows
        /\ codes (index v) = map (encode p) rows).
Proof.
  intros Hrun.
  apply store_ok_inv in Hrun
    as (a & w1 & c & rows & p & Ha & -> & _ & _ & Hi & Hd & Hm & ->).
  rewrite Hd, Hm.
  split; [intros i; apply docstore_lookup|].
  split; [intros k doc; apply docstore_keys|].
  split; [apply docstore_size|].
  split; [intros i; apply id_map_lookup|].
  split; [reflexivity|].
  split.
  - intros Hc.
    destruct Ha as [[Hc' _]|(_ & vectors & He & Hv & _)]; [congruence|].
    exists vectors, p. rewrite Hi. cbn.
    apply np_array_rows in Hv. subst rows.
    rewrite length_map, map_map. auto.
  - intros a Hc.
    destruct Ha as [[Hc' _]|[Hc' _]]; [|congruence].
    rewrite Hc in Hc'. injection Hc' as ->.
    exists c, rows, p. rewrite Hi. cbn. auto.
Qed.

End StoreFacts.

(** *** Runs of the toy instance *)

Lemma too_few_vectors_rejected_witness :
  exists w1,
    toy_store [headphone_review] empty_world = (w1, Raise TooFewTrainingPoints)
    /\ faiss_index_dir w1 = None.
Proof.
  destruct (too_few_vectors_rejected Z Z (fun x => x) (list (list Z)) (list Z)
              toy_fit toy_encode toy_embed_documents
              [headphone_review] empty_world
              (np_save Z (list (list Z)) (list Z)
                 (Arr2 8 [[32%Z; 0%Z; 0%Z; 0%Z; 0%Z; 0%Z; 0%Z; 0%Z]])
                 (log Z (list (list Z)) (list Z)
                    (EmbedDocuments [page_content headphone_review])
                    empty_world))
              (Arr2 8 [[32%Z; 0%Z; 0%Z; 0%Z; 0%Z; 0%Z; 0%Z; 0%Z]]))
    as (e & Hrun & Hdir & _ & He & _).
  - right. split; [reflexivity|]. eexists. repeat split; reflexivity.
  - cbn. lia.
  - eexists. split; [|exact Hdir].
    rewrite <- (He _ _ eq_refl). exact Hrun.
Defined.

Lemma embedding_cache_by_file_witness :
  provider_calls (trace (toy_store [headphone_review] stale_world).1) = []
  /\ provider_calls (trace (toy_store [headphone_review] empty_world).1)
     = [[page_content headphone_review]].
Proof.
  destruct (embedding_cache_by_file Z Z (fun x => x) (list (list Z)) (list Z)
              toy_fit toy_encode toy_embed_documents
              [headphone_review] stale_world) as [Hhit _].
  destruct (embedding_cache_by_file Z Z (fun x => x) (list (list Z)) (list Z)
              toy_fit toy_encode toy_embed_documents
              [headphone_review] empty_world) as [_ Hmiss].
  split.
  - exact (proj1 (Hhit stale_cache eq_refl)).
  - exact (proj1 (Hmiss eq_refl)).
Defined.

(** C2, as first stated: a second run over other documents finds the
    cache file of the first run.  The provider is not asked for the new
    text and nothing is written to the cache file. *)
Lemma cache_ignores_content :
  let d1 := doc_with_category "old review" "headphones" in
  let d2 := doc_with_category "a different review" "mobiles" in
  let w1 := (toy_store [d1] empty_world).1 in
  let w2 := (toy_store [d2] w1).1 in
  provider_calls (trace w1) = [["old review"]]
  /\ provider_calls (trace w2) = [["old review"]]
  /\ cache_writes (trace w2) = cache_writes (trace w1)
  /\ cache_file w2 = cache_file w1
  /\ ~ In (EmbedDocuments ["a different review"]) (trace w2)
  /\ skipn (length (trace w1)) (trace w2) = [NpLoad].
Proof.
  cbv zeta. repeat split; try (vm_compute; reflexivity).
  vm_compute. intuition discriminate.
Qed.

(** C10: the rows of an existing cache file are added to the index without
    a look at the documents, which fill the document store one by one; an
    index of 40 vectors next to a store of one document is the result of
    a run over one review with a cache of 40 rows. *)
Theorem cache_rows_not_checked :
  (forall (float float32 : Type) (astype_float32 : float -> float32)
          (params code : Type) fit encode embed_documents
          (documents : list Document) (w w' : world float32 params code)
          (v : VectorStore params code) (a : ndarray float32),
     cache_file w = Some a ->
     store_in_vector_db float float32 astype_float32 params code fit encode
       embed_documents documents w = (w', Ok v) ->
     ntotal (index v) = nrows a
     /\ size (docstore v) = length documents
     /\ (forall i, docstore v !! Py.str_of_nat i = documents !! i)
     /\ provider_calls (trace w') = provider_calls (trace w))
  /\ exists w' v,
       toy_store [headphone_review] stale_world = (w', Ok v)
       /\ ntotal (index v) = 40
       /\ size (docstore v) = 1
       /\ ntotal (index v) <> size (docstore v).
Proof.
  split.
  - intros. eapply store_cached_counts; eassumption.
  - eexists _, _. split; [vm_compute; reflexivity|].
    repeat split; try reflexivity. vm_compute. discriminate.
Qed.

Lemma cache_rows_not_checked_witness :
  exists w' v,
    toy_store [headphone_review] stale_world = (w', Ok v)
    /\ ntotal (index v) = 40 /\ size (docstore v) = 1.
Proof.
  destruct (toy_store [headphone_review] stale_world) as [w' [v|e]] eqn:Hrun.
  2:{ vm_compute in Hrun. discriminate Hrun. }
  exists w', v. split; [reflexivity|].
  destruct (proj1 cache_rows_not_checked Z Z (fun x => x) (list (list Z))
              (list Z) toy_fit toy_encode toy_embed_documents
              [headphone_review] stale_world w' v stale_cache eq_refl Hrun)
    as (Hn & Hs & _).
  split; [exact Hn | exact Hs].
Defined.

Lemma docstore_positions_witness :
  exists w' v,
    pq_store reviews_256 empty_world = (w', Ok v)
    /\ docstore v !! "7" = reviews_256 !! 7
    /\ index_to_docstore_id v !! 7 = Some "7"
    /\ size (docstore v) = 256
    /\ ntotal (index v) = 256.
Proof.
  assert (Hok : match (pq_store reviews_256 empty_world).2 with
                | Ok _ => true
                | Raise _ => false
                end = true) by (vm_compute; reflexivity).
  revert Hok.
  destruct (pq_store reviews_256 empty_world) as [w' [v|e]] eqn:Hrun;
    intros Hok; [|discriminate Hok].
  exists w', v. split; [reflexivity|].
  destruct (docstore_positions Z Z (fun x => x) (list (list Z)) (list Z)
              pq_fit toy_encode toy_embed_documents
              reviews_256 empty_world w' v Hrun)
    as (Hd & _ & Hs & Hi & _ & Hf & _).
  split; [exact (Hd 7)|]. split; [exact (Hi 7)|]. split; [exact Hs|].
  destruct (Hf eq_refl) as (vectors & p & He & _ & Hn & _).
  rewrite Hn. injection He as <-. vm_compute. reflexivity.
Defined.

(** C1, as first stated: with a cache file of 256 rows and one document
    the run succeeds, also with a clustering that refuses fewer than 256
    training points; the index holds 256 vectors and the document store
    one document, and position 1 of the index has no document. *)
Lemma stale_cache_breaks_positions :
  exists w' v,
    pq_store [headphone_review] large_stale_world = (w', Ok v)
    /\ ntotal (index v) = 256
    /\ size (docstore v) = 1
    /\ 1 < ntotal (index v)
    /\ index_to_docstore_id v !! 1 = None
    /\ docstore v !! Py.str_of_nat 1 = None.
Proof.
  eexists _, _. split; [vm_compute; reflexivity|].
  repeat split; try reflexivity. vm_compute. lia.
Qed.

(** ** Splitting long reviews *)

Lemma split_no_separator (sep s : string) :
  Py.contains sep s = false -> Py.split sep s = [s].
Proof.
  unfold Py.split. induction s as [|c s IH]; [reflexivity|].
  rewrite contains_eq. intros H. apply orb_false_iff in H as [Hp Hc].
  cbn [Py.split_from]. rewrite Hp, (IH Hc). reflexivity.
Qed.

Lemma split_text_no_separator (text : string) :
  Py.contains ";" text = false ->
  512 < String.length text ->
  TextSplitter.split_text text_splitter text = [text].
Proof.
  intros Hc Hlen.
  unfold TextSplitter.split_text, text_splitter.
  cbn [TextSplitter.separators TextSplitter.split_text_with].
  change (String.eqb ";" "") with false. cbv iota. rewrite Hc.
  unfold TextSplitter.split_text_with_regex.
  change (String.eqb ";" "") with false. cbv iota.
  rewrite (split_no_separator _ _ Hc). cbn [map List.filter].
  destruct text as [|c text]; [cbn in Hlen; lia|].
  cbn [String.eqb negb TextSplitter.collect TextSplitter.chunk_size].
  destruct (Nat.ltb_spec (String.length (String c text)) 512) as [Hlt|_];
    [lia | reflexivity].
Qed.

(** C3: the splitter of [transform_data] cuts at ";" only, and a review
    piece never contains one, so a piece longer than 512 characters comes
    back whole; the review of 513 characters becomes one document of 513
    characters. *)
Theorem long_review_not_split :
  (forall text, Py.contains ";" text = false ->
                512 < String.length text ->
                TextSplitter.split_text text_splitter text = [text])
  /\ String.length long_review = 513
  /\ transform_data [long_review_row]
     = Ok [mkDocument long_review (row_metadata long_review_row)].
Proof.
  split; [exact split_text_no_separator|].
  split; vm_compute; reflexivity.
Qed.

Lemma long_review_not_split_witness :
  TextSplitter.split_text text_splitter long_review = [long_review].
Proof.
  apply (proj1 long_review_not_split long_review).
  - vm_compute. reflexivity.
  - vm_compute. lia.
Defined.

(** ** Similarity search *)

Lemma enumerate_from_sorted {A} (l : list A) (k : nat) :
  StronglySorted (fun a b => a.1 < b.1) (imap (fun i x => (k + i, x)) l)
  /\ List.Forall (fun a => k <= a.1) (imap (fun i x => (k + i, x)) l).
Proof.
  revert k. induction l as [|x l IH]; intros k.
  - split; constructor.
  - rewrite imap_cons.
    rewrite (imap_ext _ (fun i x => (S k + i, x)))
      by (intros; cbn; f_equal; lia).
    destruct (IH (S k)) as [Hs Hf]. split.
    + constructor; [exact Hs|].
      eapply List.Forall_impl; [|exact Hf]. cbn. intros a. lia.
    + constructor; [cbn; lia|].
      eapply List.Forall_impl; [|exact Hf]. cbn. intros a. lia.
Qed.

Lemma enumerate_sorted {A} (l : list A) :
  StronglySorted (fun a b => a.1 < b.1) (enumerate l).
Proof. apply (enumerate_from_sorted l 0). Qed.

Section SearchFacts.

Local Abbreviation lex :=
  (fun a b : nat * N => (a.2 < b.2)%N \/ (a.2 = b.2 /\ a.1 < b.1)).

Lemma insert_lex (x : nat * N) (s : list (nat * N)) :
  StronglySorted lex s ->
  List.Forall (fun y => x.1 < y.1) s ->
  StronglySorted lex (PySort.insert_by N.leb snd x s).
Proof.
  induction 1 as [|y s Hs IH Hy]; intros Hx; cbn [PySort.insert_by].
  - constructor; constructor.
  - apply List.Forall_cons_iff in Hx as [Hxy Hx].
    destruct (N.leb_spec x.2 y.2) as [Hle|Hgt].
    + constructor; [now constructor|].
      constructor; [cbn beta; lia|].
      rewrite List.Forall_forall in *. intros z Hz.
      specialize (Hy z Hz). specialize (Hx z Hz). cbn beta in *. lia.
    + constructor; [now apply IH|].
      rewrite List.Forall_forall in *. intros z Hz.
      apply (Permutation_in _ (insert_by_perm N.leb snd x s)) in Hz.
      destruct Hz as [<-|Hz]; [left; exact Hgt | now apply Hy].
Qed.

Lemma sort_lex (l : list (nat * N)) :
  StronglySorted (fun a b => a.1 < b.1) l ->
  StronglySorted lex (PySort.sort_by N.leb snd l).
Proof.
  induction 1 as [|x l Hl IH Hx]; [constructor|].
  cbn [PySort.sort_by foldr]. apply insert_lex; [exact IH|].
  rewrite List.Forall_forall in *. intros y Hy. apply Hx.
  exact (Permutation_in _ (sort_by_perm N.leb snd l) Hy).
Qed.

Lemma take_sorted {A} (R : A -> A -> Prop) (k : nat) (l : list A) :
  StronglySorted R l -> StronglySorted R (take k l).
Proof.
  intros H. rewrite <- (take_drop k l) in H.
  now apply StronglySorted_app_1_l in H.
Qed.

Lemma In_take {A} (k : nat) (l : list A) (x : A) : In x (take k l) -> In x l.
Proof.
  intros H. rewrite <- (take_drop k l). apply in_or_app. now left.
Qed.

End SearchFacts.

Section SearchTheorem.
Variable float32 : Type.
Variable params : Type.
Variable code : Type.
Variable adist : params -> list float32 -> code -> N.

(** C7: on a trained index that holds [ntotal] codes, a search with a
    query of the index's dimension and [k > 0] succeeds; its results are in
    non-decreasing order of distance, at most [k] and at most [ntotal] of
    them, results at one distance come by ascending position, and every
    result is a stored position with its distance to the query. *)
Theorem search_sorted_bounded (idx : IndexIVFPQ params code)
    (q : list float32) (k : Z) (p : params) :
  trained idx = Some p ->
  ntotal idx = length (codes idx) ->
  length q = d idx ->
  (0 < k)%Z ->
  exists res,
    search float32 params code adist idx q k = Ok res
    /\ StronglySorted (fun a b => (a.2 <= b.2)%N) res
    /\ length res <= Nat.min (Z.to_nat k) (ntotal idx)
    /\ StronglySorted
         (fun a b => (a.2 < b.2)%N \/ (a.2 = b.2 /\ a.1 < b.1)) res
    /\ forall i dist,
         In (i, dist) res ->
         exists c, codes idx !! i = Some c /\ dist = adist p q c.
Proof.
  intros Ht Hn Hq Hk. unfold search. rewrite Ht, Hq, Nat.eqb_refl. cbn [negb].
  destruct (Z.leb_spec k 0) as [|_]; [lia|].
  eexists. split; [reflexivity|].
  set (cands := enumerate (map (adist p q) (codes idx))).
  assert (Hlex : StronglySorted
                   (fun a b : nat * N =>
                      (a.2 < b.2)%N \/ (a.2 = b.2 /\ a.1 < b.1))
                   (take (Z.to_nat k) (PySort.sort_by N.leb snd cands))).
  { apply take_sorted, sort_lex, enumerate_sorted. }
  split.
  { eapply StronglySorted_weaken; [|exact Hlex]. cbn beta. intros a b. lia. }
  split.
  { rewrite length_take, (Permutation_length (sort_by_perm N.leb snd cands)).
    unfold cands, enumerate. rewrite length_imap, length_map, Hn. lia. }
  split; [exact Hlex|].
  intros i dist Hin. apply In_take in Hin.
  apply (Permutation_in _ (sort_by_perm N.leb snd cands)) in Hin.
  apply list_elem_of_In, elem_of_lookup_imap in Hin as (j & y & E & Hj).
  injection E as -> ->.
  rewrite list_lookup_fmap in Hj.
  destruct (codes idx !! j) as [c|]; [|discriminate].
  injection Hj as <-. eauto.
Qed.

End SearchTheorem.

Lemma search_sorted_bounded_witness :
  search Z (list (list Z)) (list Z) toy_adist toy_index [0; 0]%Z 2
  = Ok [(1, 0%N); (0, 2%N)].
Proof.
  destruct (search_sorted_bounded Z (list (list Z)) (list Z) toy_adist
              toy_index [0; 0]%Z 2 [] eq_refl eq_refl eq_refl eq_refl)
    as (res & Hres & _).
  rewrite Hres. vm_compute in Hres. injection Hres as <-. reflexivity.
Defined.

(** ** More on strings *)

Lemma split_from_nonempty (sep s : string) (skip : nat) :
  Py.split_from sep s skip <> [].
Proof.
  revert skip. induction s as [|c s IH]; intros skip; cbn [Py.split_from].
  - discriminate.
  - destruct skip as [|k]; [|apply IH].
    destruct (String.prefix sep (String c s)); [discriminate|].
    specialize (IH 0). destruct (Py.split_from sep s 0); [contradiction|].
    discriminate.
Qed.

Lemma prefix_char_head (k c : ascii) (s : string) :
  String.prefix (String k EmptyString) (String c s)
  = if ascii_dec k c then true else false.
Proof. cbn. destruct (ascii_dec k c); [now destruct s | reflexivity]. Qed.

Lemma contains_semicolon_cons (c : ascii) (s : string) :
  Py.contains ";" (String c s)
  = String.prefix ";" (String c s) || Py.contains ";" s.
Proof. apply contains_eq. Qed.

(** The pieces of [s.split(";")] hold no ";". *)
Lemma split_semicolon_pieces (s : string) :
  List.Forall (fun p => Py.contains ";" p = false) (Py.split ";" s).
Proof.
  unfold Py.split. induction s as [|c s IH]; cbn [Py.split_from].
  - constructor; [reflexivity | constructor].
  - destruct (String.prefix ";" (String c s)) eqn:E.
    + constructor; [reflexivity | exact IH].
    + pose proof (split_from_nonempty ";" s 0) as Hne.
      destruct (Py.split_from ";" s 0) as [|p ps]; [contradiction|].
      apply List.Forall_cons_iff in IH as [Hp Hps].
      constructor; [|exact Hps].
      rewrite contains_semicolon_cons, Hp.
      rewrite prefix_char_head in *. now rewrite E.
Qed.

Lemma lstrip_suffix (s : string) : exists u, s = u +:+ Py.lstrip s.
Proof.
  induction s as [|c s [u Hu]]; [exists EmptyString; reflexivity|].
  cbn [Py.lstrip]. destruct (Py.isspace c).
  - exists (String c u). rewrite append_cons. now rewrite <- Hu.
  - exists EmptyString. reflexivity.
Qed.

Lemma append_empty_r (s : string) : s +:+ EmptyString = s.
Proof.
  induction s as [|c s IH]; [reflexivity|]. now rewrite append_cons, IH.
Qed.

Lemma rstrip_prefix (s : string) : exists v, s = Py.rstrip s +:+ v.
Proof.
  induction s as [|c s [v Hv]]; [exists EmptyString; reflexivity|].
  cbn [Py.rstrip]. destruct (Py.rstrip s) as [|c' r] eqn:E.
  - destruct (Py.isspace c).
    + exists (String c s). reflexivity.
    + exists s. reflexivity.
  - exists v. rewrite append_cons. now rewrite <- Hv.
Qed.

Lemma strip_substring (s : string) :
  exists u v, s = u +:+ Py.strip s +:+ v.
Proof.
  destruct (lstrip_suffix s) as [u Hu].
  destruct (rstrip_prefix (Py.lstrip s)) as [v Hv].
  exists u, v. unfold Py.strip. now rewrite <- Hv.
Qed.

Lemma contains_false_strip (sep s : string) :
  Py.contains sep s = false -> Py.contains sep (Py.strip s) = false.
Proof.
  intros H. destruct (Py.contains sep (Py.strip s)) eqn:E; [|reflexivity].
  destruct (strip_substring s) as (u & v & Hs).
  apply contains_app in E as (u' & v' & E).
  assert (Py.contains sep s = true).
  { apply contains_app. exists (u +:+ u'), (v' +:+ v).
    rewrite Hs at 1. rewrite E. now rewrite !append_assoc. }
  congruence.
Qed.

Lemma rstrip_cons (c : ascii) (s : string) :
  Py.rstrip (String c s)
  = match Py.rstrip s with
    | EmptyString => if Py.isspace c then EmptyString else String c EmptyString
    | String c' r => String c (String c' r)
    end.
Proof. reflexivity. Qed.

Lemma rstrip_idemp (s : string) : Py.rstrip (Py.rstrip s) = Py.rstrip s.
Proof.
  induction s as [|c s IH]; [reflexivity|].
  rewrite rstrip_cons. destruct (Py.rstrip s) as [|c' r] eqn:E.
  - destruct (Py.isspace c) eqn:Ec; [reflexivity|].
    rewrite rstrip_cons. cbn [Py.rstrip]. now rewrite Ec.
  - rewrite rstrip_cons, IH. reflexivity.
Qed.

(** What [rstrip] leaves starts like its argument. *)
Lemma rstrip_head (c : ascii) (s : string) :
  Py.isspace c = false -> exists r, Py.rstrip (String c s) = String c r.
Proof.
  intros Hc. cbn [Py.rstrip]. rewrite Hc.
  destruct (Py.rstrip s); eauto.
Qed.

Lemma lstrip_head (s : string) :
  Py.lstrip s = EmptyString
  \/ exists c r, Py.lstrip s = String c r /\ Py.isspace c = false.
Proof.
  induction s as [|c s IH]; [now left|].
  cbn [Py.lstrip]. destruct (Py.isspace c) eqn:Ec; [exact IH|].
  right. eauto.
Qed.

Lemma strip_idemp (s : string) : Py.strip (Py.strip s) = Py.strip s.
Proof.
  unfold Py.strip.
  destruct (lstrip_head s) as [E|(c & r & E & Hc)]; rewrite E.
  - reflexivity.
  - destruct (rstrip_head c r Hc) as [r' Hr]. rewrite Hr.
    cbn [Py.lstrip]. rewrite Hc. rewrite <- Hr. apply rstrip_idemp.
Qed.

(** ** [transform_data]: what becomes a document *)

Lemma documents_of_review_piece (m : gmap string cell) (piece : string) :
  Py.contains ";" piece = false ->
  documents_of_review m piece
  = if String.eqb (Py.strip piece) "" then []
    else [mkDocument (Py.strip piece) m].
Proof.
  intros H. unfold documents_of_review. cbv zeta.
  destruct (String.eqb (Py.strip piece) "") eqn:E; [reflexivity|].
  destruct (Nat.ltb_spec 512 (String.length (Py.strip piece))) as [Hlen|_];
    [|reflexivity].
  rewrite split_text_no_separator;
    [|now apply contains_false_strip | exact Hlen].
  cbn [map]. now rewrite strip_idemp.
Qed.

Lemma flat_map_pieces (m : gmap string cell) (pieces : list string) :
  List.Forall (fun p => Py.contains ";" p = false) pieces ->
  flat_map (documents_of_review m) pieces
  = map (fun p => mkDocument (Py.strip p) m)
      (List.filter (fun p => negb (String.eqb (Py.strip p) "")) pieces).
Proof.
  induction 1 as [|p pieces Hp _ IH]; [reflexivity|].
  cbn [flat_map List.filter]. rewrite (documents_of_review_piece m p Hp), IH.
  now destruct (String.eqb (Py.strip p) "").
Qed.

Lemma documents_of_row_pieces (r : row) :
  documents_of_row r
  = map (fun p => mkDocument (Py.strip p) (row_metadata r))
      (List.filter (fun p => negb (String.eqb (Py.strip p) ""))
         (Py.split ";" (str_of_cell (Reviews r)))).
Proof.
  unfold documents_of_row. cbv zeta.
  apply flat_map_pieces, split_semicolon_pieces.
Qed.

(** X1: a row gives one document for each piece between ";" whose text is
    not blank, in order, holding the stripped piece whole whatever its
    length. *)
Theorem documents_of_row_whole_pieces (r : row) :
  documents_of_row r
  = map (fun p => mkDocument (Py.strip p) (row_metadata r))
      (List.filter (fun p => negb (String.eqb (Py.strip p) ""))
         (Py.split ";" (str_of_cell (Reviews r)))).
Proof. apply documents_of_row_pieces. Qed.

Lemma row_metadata_category (r : row) :
  row_metadata r !! "category" = Some (default (CStr "unknown") (Category r)).
Proof. reflexivity. Qed.

Lemma row_metadata_keys (r : row) (k : string) :
  is_Some (row_metadata r !! k)
  <-> In k ["product_name"; "product_rating"; "product_price"; "product_url";
            "category"].
Proof.
  unfold row_metadata, dict_of_pairs. cbn [foldl fst snd].
  rewrite !lookup_insert_is_Some, lookup_empty, is_Some_alt. cbn [In].
  intuition congruence.
Qed.

Lemma documents_of_row_In (r : row) (doc : Document) :
  In doc (documents_of_row r) ->
  page_content doc <> ""
  /\ Py.strip (page_content doc) = page_content doc
  /\ Py.contains ";" (page_content doc) = false
  /\ metadata doc = row_metadata r.
Proof.
  rewrite documents_of_row_pieces. intros H.
  apply in_map_iff in H as (p & <- & Hp).
  apply filter_In in Hp as [Hin Hne]. cbn [page_content metadata].
  split.
  { intros E. rewrite E in Hne. discriminate. }
  split; [apply strip_idemp|].
  split; [|reflexivity].
  apply contains_false_strip.
  pose proof (split_semicolon_pieces (str_of_cell (Reviews r))) as HF.
  rewrite List.Forall_forall in HF. now apply HF.
Qed.

(** X2: every document that [transform_data] returns has a text that is
    not empty, carries no blank at either end and no ";", and has the
    metadata dictionary of a row with reviews: five keys, the category
    being the row's [Category] or "unknown". *)
Theorem transform_data_documents (product_data : list row)
    (documents : list Document) (doc : Document) :
  transform_data product_data = Ok documents ->
  In doc documents ->
  page_content doc <> ""
  /\ Py.strip (page_content doc) = page_content doc
  /\ Py.contains ";" (page_content doc) = false
  /\ exists r,
       In r product_data /\ Reviews r <> CNaN
       /\ metadata doc = row_metadata r
       /\ metadata doc !! "category"
          = Some (default (CStr "unknown") (Category r))
       /\ forall k, is_Some (metadata doc !! k)
                    <-> In k ["product_name"; "product_rating";
                              "product_price"; "product_url"; "category"].
Proof.
  unfold transform_data. cbv zeta.
  destruct (flat_map documents_of_row _) as [|d ds] eqn:E; [discriminate|].
  intros [= <-] Hin. rewrite <- E in Hin.
  apply in_flat_map in Hin as (r & Hr & Hdoc).
  apply filter_In in Hr as [Hr Hnan].
  apply documents_of_row_In in Hdoc as (H1 & H2 & H3 & H4).
  repeat (split; [assumption|]).
  exists r. split; [exact Hr|]. split.
  { intros En. rewrite En in Hnan. discriminate. }
  split; [exact H4|]. rewrite H4.
  split; [apply row_metadata_category | apply row_metadata_keys].
Qed.

Lemma transform_data_documents_witness :
  exists documents doc,
    transform_data [no_review_row; two_review_row] = Ok documents
    /\ In doc documents
    /\ page_content doc = "battery lasts long"
    /\ metadata doc !! "category" = Some (CStr "headphones").
Proof.
  destruct (transform_data [no_review_row; two_review_row])
    as [documents|e] eqn:Hrun; [|vm_compute in Hrun; discriminate Hrun].
  exists documents, (mkDocument "battery lasts long" (row_metadata two_review_row)).
  assert (Hin : In (mkDocument "battery lasts long" (row_metadata two_review_row))
                  documents).
  { vm_compute in Hrun. injection Hrun as <-. right. left. reflexivity. }
  destruct (transform_data_documents [no_review_row; two_review_row] documents
              _ Hrun Hin) as (_ & _ & _ & r & _ & _ & Hm & _).
  repeat split; try reflexivity. exact Hin.
Defined.

Lemma flat_map_nil_iff {A B} (f : A -> list B) (l : list A) :
  flat_map f l = [] <-> forall a, In a l -> f a = [].
Proof.
  induction l as [|x l IH]; cbn [flat_map].
  - split; [intros _ a [] | reflexivity].
  - split.
    + intros H. apply app_eq_nil in H as [Hx Hl].
      intros a [<-|Ha]; [exact Hx | now apply IH].
    + intros H. rewrite (H x (or_introl eq_refl)).
      apply IH. intros a Ha. apply H. now right.
Qed.

Lemma documents_of_row_nil_iff (r : row) :
  documents_of_row r = []
  <-> forall p, In p (Py.split ";" (str_of_cell (Reviews r))) ->
                Py.strip p = "".
Proof.
  rewrite documents_of_row_pieces. split.
  - intros H p Hp.
    destruct (String.eqb_spec (Py.strip p) "") as [E|E]; [exact E|].
    apply map_eq_nil in H.
    assert (Hin : In p (List.filter
                          (fun p => negb (String.eqb (Py.strip p) ""))
                          (Py.split ";" (str_of_cell (Reviews r))))).
    { apply filter_In. split; [exact Hp|].
      now destruct (String.eqb_spec (Py.strip p) ""). }
    rewrite H in Hin. destruct Hin.
  - intros H.
    induction (Py.split ";" (str_of_cell (Reviews r))) as [|p l IH];
      [reflexivity|].
    cbn [List.filter]. rewrite (H p (or_introl eq_refl)). cbn.
    apply IH. intros q Hq. apply H. now right.
Qed.

(** X3: [transform_data] raises (an [IndexError], at the print of
    [documents[0]]) exactly when no row with reviews has a piece that is not
    blank; in particular on an empty table.  Otherwise it returns, in row
    order, the documents of the rows whose reviews are not NaN. *)
Theorem transform_data_raises_iff (product_data : list row) :
  (transform_data product_data = Raise IndexError
   <-> forall r p, In r product_data -> Reviews r <> CNaN ->
                   In p (Py.split ";" (str_of_cell (Reviews r))) ->
                   Py.strip p = "")
  /\ (forall e, transform_data product_data = Raise e -> e = IndexError)
  /\ (forall documents,
        transform_data product_data = Ok documents ->
        documents <> []
        /\ documents
           = flat_map documents_of_row
               (List.filter (fun r => negb (is_nan (Reviews r))) product_data))
  /\ transform_data [] = Raise IndexError.
Proof.
  unfold transform_data. cbv zeta.
  split; [|split; [|split]].
  - destruct (flat_map documents_of_row _) as [|d ds] eqn:E.
    + split; [intros _|reflexivity].
      intros r p Hr Hnan Hp.
      rewrite flat_map_nil_iff in E.
      assert (Hin : In r (List.filter (fun r => negb (is_nan (Reviews r)))
                            product_data)).
      { apply filter_In. split; [exact Hr|]. now destruct (Reviews r). }
      apply E in Hin. rewrite documents_of_row_nil_iff in Hin. now apply Hin.
    + split; [discriminate|]. intros H. exfalso.
      assert (E' : flat_map documents_of_row
                     (List.filter (fun r => negb (is_nan (Reviews r)))
                        product_data) = []).
      { apply flat_map_nil_iff. intros r Hr.
        apply filter_In in Hr as [Hr Hnan].
        apply documents_of_row_nil_iff. intros p Hp.
        apply (H r p Hr); [|exact Hp].
        intros En. rewrite En in Hnan. discriminate. }
      congruence.
  - intros e. destruct (flat_map documents_of_row _); [|discriminate].
    now intros [= <-].
  - intros documents. destruct (flat_map documents_of_row _); [discriminate|].
    intros [= <-]. split; [discriminate | reflexivity].
  - reflexivity.
Qed.

Lemma transform_data_raises_iff_witness :
  transform_data
    [no_review_row;
     {| Title := CStr "T"; Rating := CNaN; Price := CNaN;
        Reviews := CStr " ; ;"; URL := None; Category := None |}]
  = Raise IndexError.
Proof.
  apply (proj1 (transform_data_raises_iff _)).
  intros r p [<-|[<-|[]]] Hnan Hp.
  - now contradiction Hnan.
  - cbn in Hp. destruct Hp as [<-|[<-|[<-|[]]]]; reflexivity.
Defined.

(** ** [store_in_vector_db]: runs after runs *)

Section StoreRuns.
Variable float : Type.
Variable float32 : Type.
Variable astype_float32 : float -> float32.
Variable params : Type.
Variable code : Type.
Variable fit : nat -> list (list float32) -> option params.
Variable encode : params -> list float32 -> code.
Variable embed_documents : list string -> result (list (list float)).

Local Abbreviation store :=
  (store_in_vector_db float float32 astype_float32 params code fit encode
     embed_documents).
Local Abbreviation np_array := (np_array float float32 astype_float32).
Local Abbreviation world := (world float32 params code).
Local Abbreviation log := (log float32 params code).
Local Abbreviation np_save := (np_save float32 params code).
Local Abbreviation save_local := (save_local float32 params code).
Local Abbreviation load_index := (load_faiss_index float32 params code).

(** The run once the array [a] is there, in closed form *)
Lemma store_from_array (documents : list Document) (w w1 : world)
    (a : ndarray float32) :
  array_of_run float float32 astype_float32 params code embed_documents
    documents w a w1 ->
  store documents w
  = match a with
    | Arr1 _ => (w1, Raise IndexError)
    | Arr2 c rows =>
        if length rows <? 40 then (w1, Raise TooFewTrainingPoints)
        else match fit c rows with
             | None => (w1, Raise FaissError)
             | Some p =>
                 let v :=
                   {| index :=
                        {| d := c; nlist := 40; pq_M := 8; pq_nbits := 8;
                           is_trained := true; trained := Some p;
                           ntotal := length rows;
                           codes := map (encode p) rows |};
                      docstore :=
                        dict_of_pairs
                          (map (fun p => (Py.str_of_nat p.1, p.2))
                             (enumerate documents));
                      index_to_docstore_id :=
                        dict_of_pairs
                          (map (fun i => (i, Py.str_of_nat i))
                             (seq 0 (length documents))) |} in
                 (save_local v w1, Ok v)
             end
    end.
Proof.
  intros Ha.
  unfold store_in_vector_db, bind, get_world, effect, lift, ret.
  destruct Ha as [[Hc ->]|(Hc & vectors & He & Hv & ->)]; rewrite Hc.
  - destruct a as [xs|c rows]; cbn -[Nat.ltb Nat.eqb]; [reflexivity|].
    rewrite Nat.eqb_refl. cbn -[Nat.ltb Nat.eqb].
    destruct (length rows <? 40); [reflexivity|].
    destruct (fit c rows) as [p|]; [|reflexivity].
    cbn -[Nat.ltb Nat.eqb]. rewrite Nat.eqb_refl. reflexivity.
  - rewrite He, Hv.
    destruct a as [xs|c rows]; cbn -[Nat.ltb Nat.eqb]; [reflexivity|].
    rewrite Nat.eqb_refl. cbn -[Nat.ltb Nat.eqb].
    destruct (length rows <? 40); [reflexivity|].
    destruct (fit c rows) as [p|]; [|reflexivity].
    cbn -[Nat.ltb Nat.eqb]. rewrite Nat.eqb_refl. reflexivity.
Qed.

(** X4: with a cache file in place the documents have no part in the
    index: two runs over any two document lists both fail with the same
    exception or both succeed with the same index. *)
Theorem cached_run_ignores_documents (documents1 documents2 : list Document)
    (w : world) (a : ndarray float32) :
  cache_file w = Some a ->
  match (store documents1 w).2, (store documents2 w).2 with
  | Ok v1, Ok v2 => index v1 = index v2
  | Raise e1, Raise e2 => e1 = e2
  | _, _ => False
  end.
Proof.
  intros Hc.
  rewrite (store_from_array documents1 w (log NpLoad w) a) by (left; auto).
  rewrite (store_from_array documents2 w (log NpLoad w) a) by (left; auto).
  destruct a as [xs|c rows]; [reflexivity|].
  destruct (length rows <? 40); [reflexivity|].
  destruct (fit c rows); reflexivity.
Qed.

(** X5: a second run over the same documents right after a successful
    one returns the same vector store without a call to the provider and
    without a write to the cache file. *)
Theorem rerun_same_store (documents : list Document) (w w1 : world)
    (v : VectorStore params code) :
  store documents w = (w1, Ok v) ->
  exists w2,
    store documents w1 = (w2, Ok v)
    /\ provider_calls (trace w2) = provider_calls (trace w1)
    /\ cache_writes (trace w2) = cache_writes (trace w1)
    /\ cache_file w2 = cache_file w1.
Proof.
  intros Hrun.
  pose proof Hrun as Hinv.
  apply store_ok_inv in Hinv
    as (a & w0 & c & rows & p & Ha & -> & Hn & Hf & Hi & Hd & Hm & ->).
  assert (Hc : cache_file (save_local v w0) = Some (Arr2 c rows)).
  { destruct Ha as [[Hc ->]|(_ & vectors & _ & _ & ->)]; [exact Hc|reflexivity]. }
  eexists. split.
  - rewrite (store_from_array documents _ (log NpLoad (save_local v w0))
               (Arr2 c rows)) by (left; auto).
    destruct (Nat.ltb_spec (length rows) 40) as [|_]; [lia|]. rewrite Hf.
    cbv zeta. f_equal. f_equal. destruct v as [vi vd vm].
    cbn in Hi, Hd, Hm. now subst.
  - cbn. rewrite !provider_calls_app, !cache_writes_app. cbn.
    rewrite !app_nil_r. auto.
Qed.

(** X6: a run that raises leaves the saved index as it was, so that
    [load_faiss_index] still answers with the store of the last successful
    run (or still finds none); the cache file written before the failure
    stays. *)
Theorem failed_run_keeps_saved_index (documents : list Document)
    (w w' : world) (e : exn) :
  store documents w = (w', Raise e) ->
  faiss_index_dir w' = faiss_index_dir w
  /\ (load_index w').2 = (load_index w).2
  /\ (forall vectors a,
        cache_file w = None ->
        embed_documents (map page_content documents) = Ok vectors ->
        np_array vectors = Ok a ->
        cache_file w' = Some a).
Proof.
  intros Hrun.
  assert (Hdir : faiss_index_dir w' = faiss_index_dir w).
  { revert Hrun.
    unfold store_in_vector_db, bind, get_world, effect, lift, ret.
    destruct (cache_file w) as [a|].
    - destruct a as [xs|c rows]; cbn -[Nat.ltb Nat.eqb];
        [now intros [= <- _]|].
      rewrite Nat.eqb_refl. cbn -[Nat.ltb Nat.eqb].
      destruct (length rows <? 40); [now intros [= <- _]|].
      destruct (fit c rows) as [p|]; [|now intros [= <- _]].
      cbn -[Nat.ltb Nat.eqb]. rewrite Nat.eqb_refl. intros [=].
    - destruct (embed_documents _) as [vectors|e1]; [|now intros [= <- _]].
      destruct (np_array vectors) as [a|e1]; [|now intros [= <- _]].
      destruct a as [xs|c rows]; cbn -[Nat.ltb Nat.eqb];
        [now intros [= <- _]|].
      rewrite Nat.eqb_refl. cbn -[Nat.ltb Nat.eqb].
      destruct (length rows <? 40); [now intros [= <- _]|].
      destruct (fit c rows) as [p|]; [|now intros [= <- _]].
      cbn -[Nat.ltb Nat.eqb]. rewrite Nat.eqb_refl. intros [=]. }
  split; [exact Hdir|]. split.
  { unfold load_faiss_index. rewrite Hdir.
    now destruct (faiss_index_dir w). }
  intros vectors a Hc He Hv.
  destruct (store_world_fresh float float32 astype_float32 params code fit
              encode embed_documents documents w Hc) as [_ H].
  destruct (H vectors a He Hv) as [H1 _]. now rewrite Hrun in H1.
Qed.

End StoreRuns.

Lemma cached_run_ignores_documents_witness :
  match (toy_store [headphone_review] stale_world).2,
        (toy_store forty_reviews stale_world).2 with
  | Ok v1, Ok v2 => index v1 = index v2
  | Raise e1, Raise e2 => e1 = e2
  | _, _ => False
  end.
Proof.
  exact (cached_run_ignores_documents Z Z (fun x => x) (list (list Z)) (list Z)
           toy_fit toy_encode toy_embed_documents
           [headphone_review] forty_reviews stale_world stale_cache eq_refl).
Defined.

Lemma rerun_same_store_witness :
  exists w1 v w2,
    toy_store forty_reviews empty_world = (w1, Ok v)
    /\ toy_store forty_reviews w1 = (w2, Ok v)
    /\ provider_calls (trace w2) = provider_calls (trace w1).
Proof.
  assert (Hok : match (toy_store forty_reviews empty_world).2 with
                | Ok _ => true
                | Raise _ => false
                end = true) by (vm_compute; reflexivity).
  revert Hok.
  destruct (toy_store forty_reviews empty_world) as [w1 [v|e]] eqn:Hrun;
    intros Hok; [|discriminate Hok].
  destruct (rerun_same_store Z Z (fun x => x) (list (list Z)) (list Z)
              toy_fit toy_encode toy_embed_documents
              forty_reviews empty_world w1 v Hrun) as (w2 & H2 & Hp & _).
  exists w1, v, w2. auto.
Defined.

Lemma failed_run_keeps_saved_index_witness :
  exists w',
    (toy_store [headphone_review] empty_world).1 = w'
    /\ faiss_index_dir w' = None
    /\ cache_file w' = Some (Arr2 8 [[32; 0; 0; 0; 0; 0; 0; 0]%Z]).
Proof.
  destruct (toy_store [headphone_review] empty_world) as [w' [v|e]] eqn:Hrun.
  1:{ vm_compute in Hrun. discriminate Hrun. }
  destruct (failed_run_keeps_saved_index Z Z (fun x => x) (list (list Z))
              (list Z) toy_fit toy_encode toy_embed_documents
              [headphone_review] empty_world w' e Hrun) as (Hd & _ & Hc).
  exists w'. split; [reflexivity|]. split; [exact Hd|].
  apply (Hc [[32; 0; 0; 0; 0; 0; 0; 0]%Z]); reflexivity.
Defined.

(** ** [rerank_documents]: the calls to the judge *)

Lemma sort_by_sorted_id {A K} (leb : K -> K -> bool) (key : A -> K)
    (l : list A) :
  StronglySorted (fun a b => leb (key a) (key b) = true) l ->
  PySort.sort_by leb key l = l.
Proof.
  induction 1 as [|x l Hl IH Hx]; [reflexivity|].
  cbn [PySort.sort_by foldr]. fold (PySort.sort_by leb key l). rewrite IH.
  destruct l as [|y l]; [reflexivity|].
  cbn [PySort.insert_by]. apply List.Forall_cons_iff in Hx as [Hxy _].
  now rewrite Hxy.
Qed.

Section RerankCalls.
Variable judge : Type.
Variable invoke : judge -> string -> judge * result string.

(** X7: the judge is asked once for every [Document] of [docs], in the
    order of [docs], with the prompt made of the query and that document's
    text; no question is asked for another object, and an answer that is
    dropped does not stop the questions that follow. *)
Theorem judge_asked_once_per_document (query : string) (docs : list pyobj)
    (llm : judge) :
  (score_docs judge invoke llm query docs).1
  = foldl (fun s prompt => (invoke s prompt).1) llm
      (flat_map (fun o => match o with
                          | IsDocument doc =>
                              [relevance_prompt query (page_content doc)]
                          | NotDocument => []
                          end) docs).
Proof.
  revert llm. induction docs as [|[doc|] docs IH]; intros llm.
  - reflexivity.
  - cbn [score_docs flat_map app foldl].
    destruct (invoke llm _) as [llm1 response]. cbn [fst].
    specialize (IH llm1).
    destruct (score_docs judge invoke llm1 query docs) as [llm2 scored].
    cbn [fst] in IH. now destruct (parse_score response).
  - cbn [score_docs flat_map app]. apply IH.
Qed.

(** X8: when the scores the judge gave are already in non-increasing
    order, [rerank_documents] returns the scored documents in the order of
    retrieval. *)
Theorem rerank_keeps_descending_order (query : string) (docs : list pyobj)
    (llm : judge) :
  StronglySorted (fun a b : Document * Z => (b.2 <= a.2)%Z)
    (score_docs judge invoke llm query docs).2 ->
  rerank_documents judge invoke query docs llm
  = map fst (score_docs judge invoke llm query docs).2.
Proof.
  intros H. unfold rerank_documents, PySort.sort_desc.
  rewrite sort_by_sorted_id; [reflexivity|].
  eapply StronglySorted_weaken; [|exact H].
  intros a b Hab. cbv beta. now apply Z.leb_le.
Qed.

Lemma accepted_sublist (t : list (pyobj * option (result string))) :
  map fst (accepted t)
    `sublist_of` flat_map (fun e => match e.1 with
                                    | IsDocument doc => [doc]
                                    | NotDocument => []
                                    end) t.
Proof.
  induction t as [|[[doc|] [r|]] t IH]; cbn [accepted flat_map fst app map].
  - constructor.
  - destruct (parse_score r); cbn [map fst].
    + now apply sublist_skip.
    + now apply sublist_cons.
  - now apply sublist_cons.
  - exact IH.
  - exact IH.
Qed.

Lemma transcript_documents (query : string) (docs : list pyobj) (llm : judge) :
  flat_map (fun e : pyobj * option (result string) =>
              match e.1 with
              | IsDocument doc => [doc]
              | NotDocument => []
              end) (transcript judge invoke llm query docs)
  = flat_map (fun o => match o with
                       | IsDocument doc => [doc]
                       | NotDocument => []
                       end) docs.
Proof.
  revert llm. induction docs as [|[doc|] docs IH]; intros llm;
    cbn [transcript flat_map fst app]; [reflexivity| |apply IH].
  now rewrite IH.
Qed.

(** X9: [rerank_documents] returns a rearrangement of some of the
    [Document]s of [docs]: no document is made up or returned more often
    than it occurs in [docs], and the output is not longer than the
    number of [Document]s. *)
Theorem rerank_rearranges_candidates (query : string) (docs : list pyobj)
    (llm : judge) :
  exists kept,
    Permutation (rerank_documents judge invoke query docs llm) kept
    /\ kept `sublist_of`
         flat_map (fun o => match o with
                            | IsDocument doc => [doc]
                            | NotDocument => []
                            end) docs
    /\ length (rerank_documents judge invoke query docs llm) <= length docs.
Proof.
  exists (map fst (score_docs judge invoke llm query docs).2).
  assert (HP : Permutation (rerank_documents judge invoke query docs llm)
                 (map fst (score_docs judge invoke llm query docs).2)).
  { unfold rerank_documents. apply Permutation_map, sort_desc_perm. }
  assert (HS : map fst (score_docs judge invoke llm query docs).2
                 `sublist_of`
                 flat_map (fun o => match o with
                                    | IsDocument doc => [doc]
                                    | NotDocument => []
                                    end) docs).
  { rewrite score_docs_transcript, <- (transcript_documents query docs llm).
    apply accepted_sublist. }
  split; [exact HP|]. split; [exact HS|].
  rewrite (Permutation_length HP).
  apply sublist_length in HS. etransitivity; [exact HS|].
  clear. induction docs as [|[doc|] docs IH]; cbn; lia.
Qed.

End RerankCalls.

Lemma rerank_keeps_descending_order_witness :
  rerank_documents scripted_judge scripted_invoke "any headphones?"
    [IsDocument headphone_review; NotDocument;
     IsDocument (doc_with_category "too quiet" "headphones");
     IsDocument (doc_with_category "broke in a week" "headphones")]
    ["9"; "9"; "3"]
  = [headphone_review; doc_with_category "too quiet" "headphones";
     doc_with_category "broke in a week" "headphones"].
Proof.
  rewrite (rerank_keeps_descending_order scripted_judge scripted_invoke).
  - reflexivity.
  - vm_compute.
    repeat first [apply SSorted_nil | apply SSorted_cons
                 | apply List.Forall_nil | apply List.Forall_cons].
    all: vm_compute; discriminate.
Defined.

(** ** The category filter of [retrieval.py] *)

Lemma filter_sublist {A} (f : A -> bool) (l : list A) :
  List.filter f l `sublist_of` l.
Proof.
  induction l as [|x l IH]; cbn [List.filter]; [constructor|].
  destruct (f x); [now apply sublist_skip | now apply sublist_cons].
Qed.

Lemma filter_filter_same {A} (f : A -> bool) (l : list A) :
  List.filter f (List.filter f l) = List.filter f l.
Proof.
  induction l as [|x l IH]; cbn [List.filter]; [reflexivity|].
  destruct (f x) eqn:E; [|exact IH].
  cbn [List.filter]. now rewrite E, IH.
Qed.

(** X10: [category_filtered_results] keeps retrieved documents in their
    order, never turns a non-empty retrieval into an empty one, returns
    only documents of the detected category whenever it drops any, and
    filtering its own output changes nothing. *)
Theorem category_filter_never_empties (user_query : string)
    (results : list Document) :
  Retrieval.category_filtered_results user_query results `sublist_of` results
  /\ (results <> [] ->
      Retrieval.category_filtered_results user_query results <> [])
  /\ (Retrieval.category_filtered_results user_query results <> results ->
      List.Forall
        (fun doc =>
           has_category (Retrieval.detect_category_from_query user_query) doc
           = true)
        (Retrieval.category_filtered_results user_query results))
  /\ Retrieval.category_filtered_results user_query
       (Retrieval.category_filtered_results user_query results)
     = Retrieval.category_filtered_results user_query results.
Proof.
  unfold Retrieval.category_filtered_results. cbv zeta.
  set (cat := Retrieval.detect_category_from_query user_query).
  destruct (negb (String.eqb cat "unknown")).
  - destruct (List.filter (has_category cat) results) as [|d ds] eqn:E.
    + rewrite E. repeat split; auto. congruence.
    + rewrite <- E. rewrite filter_filter_same, E.
      split; [rewrite <- E; apply filter_sublist|].
      split; [discriminate|]. split; [|reflexivity].
      intros _. rewrite <- E. apply List.Forall_forall.
      intros doc Hd. now apply filter_In in Hd.
  - destruct results as [|d ds]; repeat split; auto; congruence.
Qed.

Lemma category_filter_never_empties_witness :
  Retrieval.category_filtered_results "cheap smartwatch under 2000"
    [headphone_review] <> [].
Proof.
  apply (category_filter_never_empties "cheap smartwatch under 2000"
           [headphone_review]).
  discriminate.
Defined.

(** X11: the scraper labels its products with the search query, the query
    classifier answers with its own category names, and the two agree on
    "headphones" only: a document whose category is the search query of
    another scraped category passes the filter of no user query, so the
    script of [retrieval.py] falls back to the unfiltered results whenever
    only such documents were retrieved. *)
Theorem scraped_category_never_matches (user_query : string) :
  (forall (doc : Document) (name search_query : string),
     In (name, search_query) scraper_categories ->
     search_query <> "headphones" ->
     metadata doc !! "category" = Some (CStr search_query) ->
     has_category (Retrieval.detect_category_from_query user_query) doc = false
     /\ has_category (Ingestion.detect_category_from_query user_query) doc
        = false)
  /\ forall results : list Document,
       List.Forall
         (fun doc => exists name search_query,
            In (name, search_query) scraper_categories
            /\ search_query <> "headphones"
            /\ metadata doc !! "category" = Some (CStr search_query))
         results ->
       Retrieval.category_filtered_results user_query results = results.
Proof.
  assert (H1 : forall (doc : Document) (name search_query : string),
             In (name, search_query) scraper_categories ->
             search_query <> "headphones" ->
             metadata doc !! "category" = Some (CStr search_query) ->
             has_category (Retrieval.detect_category_from_query user_query) doc
             = false).
  { intros doc name sq Hin Hne Hm. unfold has_category. rewrite Hm.
    cbn [cell_eq_str].
    pose proof (detect_category_closed user_query) as Hc.
    cbn [In scraper_categories] in Hin, Hc.
    destruct Hin as [E|[E|[E|[E|[]]]]]; injection E as <- <-;
      try congruence;
      destruct Hc as [<-|[<-|[<-|[<-|[<-|[]]]]]]; reflexivity. }
  split.
  - intros doc name sq Hin Hne Hm.
    rewrite detect_category_same. split; eapply H1; eassumption.
  - intros results HF. unfold Retrieval.category_filtered_results. cbv zeta.
    destruct (negb _); [|now destruct results].
    assert (E : List.filter
                  (has_category
                     (Retrieval.detect_category_from_query user_query))
                  results = []).
    { induction HF as [|doc l (name & sq & Hin & Hne & Hm) _ IH];
        [reflexivity|].
      cbn [List.filter]. now rewrite (H1 doc name sq Hin Hne Hm). }
    now rewrite E.
Qed.

Lemma scraped_category_never_matches_witness :
  has_category
    (Retrieval.detect_category_from_query "Can you suggest phones under 20000?")
    (doc_with_category "fast and smooth" "smartphones") = false.
Proof.
  apply (proj1 (scraped_category_never_matches
                  "Can you suggest phones under 20000?")
           (doc_with_category "fast and smooth" "smartphones")
           "Mobiles" "smartphones").
  - left. reflexivity.
  - discriminate.
  - reflexivity.
Defined.

(** ** The [Retriever] object *)

Section ServingFacts.
Variable float : Type.
Variable float32 : Type.
Variable astype_float32 : float -> float32.
Variable params : Type.
Variable code : Type.
Variable fit : nat -> list (list float32) -> option params.
Variable encode : params -> list float32 -> code.
Variable embed_documents : list string -> result (list (list float)).
Variable retriever_invoke : VectorStoreRetriever params code -> string ->
                            result (list Document).
Variable load_llm : result (string -> result string).

Local Abbreviation store :=
  (store_in_vector_db float float32 astype_float32 params code fit encode
     embed_documents).
Local Abbreviation world := (world float32 params code).
Local Abbreviation load := (@load_retriever float32 params code).
Local Abbreviation chain :=
  (@invoke_chain float32 params code retriever_invoke load_llm).

Lemma load_retriever_ok_inv (self self1 : Retriever params code)
    (w w1 : world) (r : VectorStoreRetriever params code) :
  load self w = (self1, w1, Ok r) ->
  w1 = w
  /\ config self1 = config self
  /\ retriever self1 = Some r
  /\ exists v, vstore self1 = Some v
               /\ (vstore self = None -> faiss_index_dir w = Some v)
               /\ (retriever self = None ->
                   r = {| vectorstore := v;
                          search_k := config_top_k (config self) |}).
Proof.
  unfold load_retriever, load_faiss_index.
  destruct (vstore self) as [v|] eqn:Ev.
  - destruct (retriever self) as [r0|] eqn:Er; cbn; rewrite ?Ev, ?Er; cbn;
      intros [= <- <- <-]; cbn; repeat split; eauto;
      exists v; repeat split; auto; discriminate.
  - destruct (faiss_index_dir w) as [v|] eqn:Ed; cbn; [|intros [=]].
    destruct (retriever self) as [r0|] eqn:Er; cbn;
      intros [= <- <- <-]; cbn; repeat split; eauto;
      exists v; repeat split; auto; discriminate.
Qed.

(** X12: the index is loaded once.  After a call of [load_retriever] that
    succeeded, every later call returns the same retriever and leaves the
    object alone, whatever the saved index has become: also after
    [store_in_vector_db] has saved another store.  The first call of a new
    object takes the saved store and [top_k] from the configuration, 50
    when it is not set. *)
Theorem load_retriever_memoized (self self1 : Retriever params code)
    (w w1 : world) (r : VectorStoreRetriever params code) :
  load self w = (self1, w1, Ok r) ->
  (forall w2, load self1 w2 = (self1, w2, Ok r))
  /\ (forall documents w2 v2,
        store documents w1 = (w2, Ok v2) ->
        load self1 w2 = (self1, w2, Ok r)
        /\ load_faiss_index float32 params code w2 = (w2, Ok v2))
  /\ (vstore self = None -> retriever self = None ->
      faiss_index_dir w = Some (vectorstore r)
      /\ search_k r = config_top_k (config self)).
Proof.
  intros Hload.
  apply load_retriever_ok_inv in Hload as (-> & Hc & Hr & v & Hv & Hd & Hk).
  assert (Hmemo : forall w2, load self1 w2 = (self1, w2, Ok r)).
  { intros w2. unfold load_retriever. now rewrite Hv, Hr. }
  split; [exact Hmemo|]. split.
  - intros documents w2 v2 Hrun. split; [apply Hmemo|].
    apply store_ok_inv in Hrun as (? & ? & ? & ? & ? & _ & _ & _ & _ & _ & _ & _ & ->).
    reflexivity.
  - intros Ev Er. rewrite (Hk Er). cbn. split; [now apply Hd | reflexivity].
Qed.

(** X13: without a saved index [load_retriever] raises and leaves the
    object as it was, so that the next call, after an ingestion run has
    saved a store, loads that store. *)
Theorem load_retriever_retries (cfg : gmap string (gmap string Z))
    (w : world) :
  faiss_index_dir w = None ->
  load (new_Retriever cfg) w = (new_Retriever cfg, w, Raise FileNotFound)
  /\ forall documents w2 v,
       store documents w = (w2, Ok v) ->
       exists self1,
         load (new_Retriever cfg) w2
         = (self1, w2, Ok {| vectorstore := v; search_k := config_top_k cfg |})
         /\ vstore self1 = Some v.
Proof.
  intros Hd. split.
  - unfold load_retriever, load_faiss_index, new_Retriever. cbn.
    now rewrite Hd.
  - intros documents w2 v Hrun.
    apply store_ok_inv in Hrun
      as (? & ? & ? & ? & ? & _ & _ & _ & _ & _ & _ & _ & ->).
    eexists. unfold load_retriever, load_faiss_index, new_Retriever. cbn.
    split; reflexivity.
Qed.

(** X14: [invoke_chain] raises exactly when [load_retriever] raises or,
    the retriever being there, [load_llm] raises, and then with that
    exception: a missing index and a model that cannot be built are not
    caught.  Once both are there it always returns a text: the model's
    answer to the prompt with the retrieved texts joined by newlines, or
    with the notice that nothing was found when the search raised, and the
    apology when the model raised. *)
Theorem invoke_chain_errors (query : string) (self : Retriever params code)
    (w : world) :
  (forall e,
     (chain query self w).2 = Raise e
     <-> (load self w).2 = Raise e
         \/ ((exists r, (load self w).2 = Ok r) /\ load_llm = Raise e))
  /\ (vstore self = None -> faiss_index_dir w = None ->
      chain query self w = (self, w, Raise FileNotFound))
  /\ (forall self1 w1 r e,
        load self w = (self1, w1, Ok r) ->
        load_llm = Raise e ->
        chain query self w = (self1, w1, Raise e))
  /\ forall self1 w1 r llm,
       load self w = (self1, w1, Ok r) ->
       load_llm = Ok llm ->
       exists output,
         chain query self w = (self1, w1, Ok output)
         /\ let context :=
              match retriever_invoke r query with
              | Ok docs => Py.join newline (map page_content docs)
              | Raise _ => no_context_notice
              end in
            match llm (product_bot_prompt context query) with
            | Ok answer => output = answer
            | Raise _ => output = apology
            end.
Proof.
  split; [|split; [|split]].
  - intros e. unfold invoke_chain.
    destruct (load self w) as [[self1 w1] [r|e1]]; cbn [snd].
    + destruct load_llm as [llm|e2]; cbn [snd].
      * destruct (llm _); cbn [snd];
          (split; [discriminate | intros [H|[_ H]]; discriminate H]).
      * split.
        -- intros [= ->]. right. split; [eauto | reflexivity].
        -- intros [H|[_ H]]; [discriminate H|]. now injection H as ->.
    + split.
      * intros [= ->]. now left.
      * intros [H|[[r H] _]]; [|discriminate H]. now injection H as ->.
  - intros Ev Ed. unfold invoke_chain, load_retriever, load_faiss_index.
    now rewrite Ev, Ed.
  - intros self1 w1 r e Hload Hllm. unfold invoke_chain.
    now rewrite Hload, Hllm.
  - intros self1 w1 r llm Hload Hllm. unfold invoke_chain.
    rewrite Hload, Hllm. cbv zeta.
    destruct (llm _); eauto.
Qed.

End ServingFacts.

Lemma load_retriever_memoized_witness :
  exists self1 r,
    load_retriever (new_Retriever ∅) (toy_store forty_reviews empty_world).1
    = (self1, (toy_store forty_reviews empty_world).1, Ok r)
    /\ load_retriever self1 empty_world = (self1, empty_world, Ok r)
    /\ search_k r = 50%Z.
Proof.
  assert (Hok : match (load_retriever (new_Retriever ∅)
                         (toy_store forty_reviews empty_world).1).2 with
                | Ok _ => true
                | Raise _ => false
                end = true) by (vm_compute; reflexivity).
  revert Hok.
  destruct (load_retriever (new_Retriever ∅)
              (toy_store forty_reviews empty_world).1)
    as [[self1 w1] [r|e]] eqn:Hload; intros Hok; [|discriminate Hok].
  destruct (load_retriever_memoized Z Z (fun x => x) (list (list Z)) (list Z)
              toy_fit toy_encode toy_embed_documents _ _ _ _ _ Hload)
    as (Hmemo & _ & Hfirst).
  pose proof Hload as Hinv.
  apply load_retriever_ok_inv in Hinv as (-> & _).
  exists self1, r. split; [reflexivity|]. split; [apply Hmemo|].
  now destruct (Hfirst eq_refl eq_refl).
Defined.

Lemma load_retriever_retries_witness :
  load_retriever (new_Retriever ∅) empty_world
  = (new_Retriever ∅, empty_world, Raise FileNotFound).
Proof.
  exact (proj1 (load_retriever_retries Z Z (fun x => x) (list (list Z))
                  (list Z) toy_fit toy_encode toy_embed_documents
                  ∅ empty_world eq_refl)).
Defined.

Lemma invoke_chain_errors_witness :
  invoke_chain toy_retriever_invoke (Ok toy_llm_answer) "any headphones?"
    (new_Retriever ∅) empty_world
  = (new_Retriever ∅, empty_world, Raise FileNotFound)
  /\ exists self1 r,
       invoke_chain toy_retriever_invoke (Raise ProviderError)
         "any headphones?" (new_Retriever ∅)
         (toy_store forty_reviews empty_world).1
       = (self1, (toy_store forty_reviews empty_world).1, Raise ProviderError)
       /\ retriever self1 = Some r.
Proof.
  split.
  - destruct (invoke_chain_errors Z (list (list Z)) (list Z)
                toy_retriever_invoke (Ok toy_llm_answer) "any headphones?"
                (new_Retriever ∅) empty_world) as (_ & H & _).
    apply H; reflexivity.
  - assert (Hok : match (load_retriever (new_Retriever ∅)
                           (toy_store forty_reviews empty_world).1).2 with
                  | Ok _ => true
                  | Raise _ => false
                  end = true) by (vm_compute; reflexivity).
    revert Hok.
    destruct (load_retriever (new_Retriever ∅)
                (toy_store forty_reviews empty_world).1)
      as [[self1 w1] [r|e]] eqn:Hload; intros Hok; [|discriminate Hok].
    pose proof Hload as Hinv.
    apply load_retriever_ok_inv in Hinv as (-> & _ & Hr & _).
    destruct (invoke_chain_errors Z (list (list Z)) (list Z)
                toy_retriever_invoke (Raise ProviderError) "any headphones?"
                (new_Retriever ∅) (toy_store forty_reviews empty_world).1)
      as (_ & _ & H & _).
    exists self1, r. split; [exact (H _ _ _ _ Hload eq_refl) | exact Hr].
Defined.

(** ** The scraper's review texts *)

Lemma collect_reviews_spec (review_texts : list (option string))
    (reviews : list string) :
  exists added,
    collect_reviews reviews review_texts = reviews ++ added
    /\ added `sublist_of` found_texts review_texts
    /\ ~ In "No text" added
    /\ (length reviews <= 100 -> length (reviews ++ added) <= 100)
    /\ (length reviews + length (found_texts review_texts) <= 100 ->
        ~ In "No text" (found_texts review_texts) ->
        added = found_texts review_texts).
Proof.
  revert reviews. induction review_texts as [|t rest IH]; intros reviews.
  - exists []. rewrite app_nil_r. repeat split; auto; constructor.
  - cbn [collect_reviews]. cbv zeta.
    destruct (negb (String.eqb (default "No text" t) "No text")
              && (length reviews <? 100)) eqn:E.
    + apply andb_true_iff in E as [Et Hlen].
      apply Nat.ltb_lt in Hlen.
      destruct t as [s|]; [|discriminate].
      change (default "No text" (Some s)) with s in *.
      destruct (IH (reviews ++ [s])) as (added & Heq & Hsub & Hno & Hle & Hall).
      exists (s :: added). rewrite Heq, <- List.app_assoc. cbn [app found_texts].
      split; [reflexivity|]. split; [now apply sublist_skip|].
      split.
      { intros [Hs|H]; [|contradiction].
        subst s. rewrite String.eqb_refl in Et. discriminate Et. }
      split.
      { intros _. rewrite <- List.app_assoc in Hle. cbn [app] in Hle.
        apply Hle. rewrite length_app. cbn. lia. }
      intros Hroom Hnone. f_equal. apply Hall.
      * rewrite length_app. cbn [length app found_texts] in *. lia.
      * intros H. apply Hnone. now right.
    + destruct (IH reviews) as (added & Heq & Hsub & Hno & Hle & Hall).
      exists added. split; [exact Heq|].
      split.
      { destruct t; cbn [found_texts]; [now apply sublist_cons | exact Hsub]. }
      split; [exact Hno|]. split; [exact Hle|].
      intros Hroom Hnone. destruct t as [s|]; cbn [found_texts] in *; [|auto].
      exfalso. apply andb_false_iff in E as [E|E].
      * change (default "No text" (Some s)) with s in E.
        apply negb_false_iff, String.eqb_eq in E. subst s.
        apply Hnone. now left.
      * apply Nat.ltb_ge in E. cbn [length] in Hroom. lia.
Qed.

(** X15: the review texts collected from a page extend the texts collected
    before, in page order; the list never grows beyond 100 texts and never
    holds the text "No text", which stands for a block without review
    element (so a review that reads "No text" is lost); with room left and
    no such text everything found is kept. *)
Theorem collect_reviews_bounded (reviews : list string)
    (review_texts : list (option string)) :
  length reviews <= 100 ->
  exists added,
    collect_reviews reviews review_texts = reviews ++ added
    /\ added `sublist_of` found_texts review_texts
    /\ ~ In "No text" added
    /\ length (collect_reviews reviews review_texts) <= 100
    /\ (length reviews + length (found_texts review_texts) <= 100 ->
        ~ In "No text" (found_texts review_texts) ->
        added = found_texts review_texts).
Proof.
  intros Hlen.
  destruct (collect_reviews_spec review_texts reviews)
    as (added & Heq & Hsub & Hno & Hle & Hall).
  exists added. rewrite Heq. repeat split; auto.
Qed.

Lemma collect_reviews_bounded_witness :
  collect_reviews ["first"] [Some "loud"; None; Some "No text"; Some "light"]
  = ["first"; "loud"; "light"].
Proof.
  destruct (collect_reviews_bounded ["first"]
              [Some "loud"; None; Some "No text"; Some "light"])
    as (added & Heq & _); [cbn; lia|].
  rewrite Heq. vm_compute in Heq. injection Heq as <-. reflexivity.
Defined.

(** ** Lower case, blanks and ";" *)

Lemma isspace_lower_char (c : ascii) :
  Py.isspace (Py.lower_char c) = Py.isspace c.
Proof. destruct c as [[] [] [] [] [] [] [] []]; reflexivity. Qed.




Lemma lstrip_lower (s : string) :
  Py.lstrip (Py.lower s) = Py.lower (Py.lstrip s).
Proof.
  induction s as [|c s IH]; [reflexivity|].
  cbn [Py.lower Py.lstrip]. rewrite isspace_lower_char.
  destruct (Py.isspace c); [exact IH | reflexivity].
Qed.

Lemma rstrip_lower (s : string) :
  Py.rstrip (Py.lower s) = Py.lower (Py.rstrip s).
Proof.
  induction s as [|c s IH]; [reflexivity|].
  cbn [Py.lower]. rewrite !rstrip_cons, IH, isspace_lower_char.
  destruct (Py.rstrip s) as [|c' r]; cbn [Py.lower].
  - now destruct (Py.isspace c).
  - reflexivity.
Qed.

Lemma strip_lower (s : string) :
  Py.strip (Py.lower s) = Py.lower (Py.strip s).
Proof. unfold Py.strip. now rewrite lstrip_lower, rstrip_lower. Qed.


Lemma contains_semicolon_app (a b : string) :
  Py.contains ";" (a +:+ b) = Py.contains ";" a || Py.contains ";" b.
Proof.
  induction a as [|c a IH]; [reflexivity|].
  rewrite append_cons, !contains_semicolon_cons, !prefix_char_head, IH.
  now rewrite orb_assoc.
Qed.






Lemma strip_space_cons (t : string) :
  Py.strip (" " +:+ t) = Py.strip t.
Proof. reflexivity. Qed.

(** ** From the scraper's string of reviews to documents *)

Lemma split_semicolon_app (a b : string) :
  Py.contains ";" a = false ->
  Py.split ";" (a +:+ ";" +:+ b) = a :: Py.split ";" b.
Proof.
  unfold Py.split. induction a as [|c a IH]; intros H.
  - rewrite append_nil. change (";" +:+ b) with (String ";" b).
    cbn [Py.split_from]. rewrite prefix_char_head.
    destruct (ascii_dec ";" ";"); [reflexivity | congruence].
  - rewrite contains_semicolon_cons in H. apply orb_false_iff in H as [Hp Hc].
    rewrite append_cons. cbn [Py.split_from].
    rewrite prefix_char_head in *. rewrite Hp, (IH Hc). reflexivity.
Qed.

Lemma join_cons2 (sep r r2 : string) (rest : list string) :
  Py.join sep (r :: r2 :: rest) = r +:+ sep +:+ Py.join sep (r2 :: rest).
Proof. reflexivity. Qed.

Lemma split_join (pre : string) (rs : list string) :
  rs <> [] ->
  Py.contains ";" pre = false ->
  List.Forall (fun t => Py.contains ";" t = false) rs ->
  Py.split ";" (pre +:+ Py.join "; " rs)
  = match rs with
    | [] => []
    | r :: rest => (pre +:+ r) :: map (fun t => " " +:+ t) rest
    end.
Proof.
  intros Hne Hpre HF. revert pre Hpre.
  induction HF as [|r rest Hr HF IH]; [congruence|]. intros pre Hpre.
  destruct rest as [|r2 rest].
  - cbn [Py.join map]. apply split_no_separator.
    now rewrite contains_semicolon_app, Hpre, Hr.
  - rewrite join_cons2.
    change ("; " +:+ Py.join "; " (r2 :: rest))
      with (";" +:+ (" " +:+ Py.join "; " (r2 :: rest))).
    rewrite <- append_assoc, split_semicolon_app
      by (now rewrite contains_semicolon_app, Hpre, Hr).
    rewrite IH by (discriminate || reflexivity). reflexivity.
Qed.



Lemma documents_of_joined (rs : list string) (r : row) :
  rs <> [] ->
  List.Forall (fun t => t <> "" /\ Py.strip t = t
                        /\ Py.contains ";" t = false) rs ->
  Reviews r = CStr (Py.join "; " rs) ->
  documents_of_row r = map (fun t => mkDocument t (row_metadata r)) rs.
Proof.
  intros Hne HF HR. rewrite documents_of_row_pieces, HR.
  cbn [str_of_cell].
  rewrite <- (append_nil (Py.join "; " rs)).
  rewrite split_join; [|exact Hne|reflexivity|].
  2:{ eapply List.Forall_impl; [|exact HF]. cbv beta. tauto. }
  destruct HF as [|t rest (Ht & Hs & _) HF]; [congruence|].
  rewrite append_nil. cbn [List.filter map]. rewrite Hs.
  destruct (String.eqb_spec t "") as [|_]; [contradiction|]. cbn [negb map].
  rewrite Hs. f_equal. clear -HF.
  induction HF as [|u rest (Hu & Hs & _) HF IH]; [reflexivity|].
  cbn [map List.filter]. rewrite strip_space_cons, Hs.
  destruct (String.eqb_spec u "") as [|_]; [contradiction|]. cbn [negb map].
  now rewrite strip_space_cons, Hs, IH.
Qed.



(** ** The cleaning script *)

Lemma normalise_review_fixed (c : cell) :
  Py.lower (Py.strip (normalise_review c)) = normalise_review c.
Proof.
  unfold normalise_review.
  now rewrite strip_lower, lower_idemp, strip_idemp.
Qed.

Lemma normalise_row_idemp (r : gmap string cell) :
  normalise_row (normalise_row r) = normalise_row r.
Proof.
  unfold normalise_row. rewrite lookup_insert_eq.
  change (default CNaN (Some ?x)) with x.
  unfold normalise_review at 1. cbn [str_of_cell].
  rewrite normalise_review_fixed. apply insert_insert_eq.
Qed.



(** X18: cleaning a cleaned table changes nothing. *)
Theorem clean_reviews_idempotent (df cleaned : DataFrame) :
  clean_reviews df = Ok cleaned ->
  clean_reviews cleaned = Ok cleaned.
Proof.
  unfold clean_reviews.
  destruct (existsb (String.eqb "Reviews") (columns df)) eqn:Ec;
    [|discriminate].
  intros [= <-]. cbn [columns records]. rewrite Ec. do 2 f_equal.
  set (kept := List.filter (fun r => negb (has_invalid_review r))
                 (map normalise_row (records df))).
  assert (Hid : map normalise_row kept = kept).
  { rewrite <- (map_id kept) at 2. apply map_ext_in.
    intros r Hr. apply filter_In in Hr as [Hr _].
    apply in_map_iff in Hr as (r0 & <- & _). apply normalise_row_idemp. }
  rewrite Hid. apply filter_filter_same.
Qed.


Lemma clean_reviews_idempotent_witness :
  exists cleaned,
    clean_reviews raw_frame = Ok cleaned
    /\ clean_reviews cleaned = Ok cleaned.
Proof.
  destruct (clean_reviews raw_frame) as [cleaned|e] eqn:Hrun.
  2:{ vm_compute in Hrun. discriminate Hrun. }
  exists cleaned. split; [reflexivity|].
  exact (clean_reviews_idempotent raw_frame cleaned Hrun).
Defined.

(** ** The review estimate of the statistics *)

Lemma filter_length_le {A} (f : A -> bool) (l : list A) :
  length (List.filter f l) <= length l.
Proof. apply sublist_length, filter_sublist. Qed.

(** X19: the number of reviews that [log_review_statistics] estimates for
    a row is at least one and never below the number of documents that
    [transform_data] makes of the row; on the string that the scraper
    joined from texts without ";" both numbers are the number of texts. *)
Theorem estimate_bounds_documents (r : row) :
  1 <= estimated_review_count (Reviews r)
  /\ length (documents_of_row r) <= estimated_review_count (Reviews r)
  /\ forall reviews,
       reviews <> [] ->
       List.Forall (fun t => t <> "" /\ Py.strip t = t
                             /\ Py.contains ";" t = false) reviews ->
       Reviews r = CStr (reviews_result reviews) ->
       estimated_review_count (Reviews r) = length reviews
       /\ length (documents_of_row r) = length reviews.
Proof.
  unfold estimated_review_count. split; [|split].
  - pose proof (split_from_nonempty ";" (str_of_cell (Reviews r)) 0) as H.
    unfold Py.split. destruct (Py.split_from _ _ _); [contradiction|cbn; lia].
  - rewrite documents_of_row_pieces, length_map.
    apply filter_length_le.
  - intros reviews Hne HF HR. split.
    + rewrite HR. cbn [str_of_cell].
      assert (Hres : reviews_result reviews = Py.join "; " reviews)
        by (destruct reviews; [congruence | reflexivity]).
      rewrite Hres, <- (append_nil (Py.join "; " reviews)).
      rewrite split_join; [|exact Hne|reflexivity|].
      * destruct reviews; [congruence|]. cbn [length]. now rewrite length_map.
      * eapply List.Forall_impl; [|exact HF]. cbv beta. tauto.
    + assert (Hres : reviews_result reviews = Py.join "; " reviews)
        by (destruct reviews; [congruence | reflexivity]).
      rewrite (documents_of_joined reviews r Hne HF) by (now rewrite <- Hres).
      apply length_map.
Qed.

Lemma estimate_bounds_documents_witness :
  estimated_review_count (Reviews two_review_row) = 4
  /\ length (documents_of_row two_review_row) <= 4.
Proof.
  split; [reflexivity|].
  exact (proj1 (proj2 (estimate_bounds_documents two_review_row))).
Defined.
